(** * MikeWindows: binding native window handles to application objects

    A shallow embedding of [MikeWindows.h]: the failure formatter
    [win32_error::format], the class registration and window creation done by
    the [AppWindow<T>] constructor, the shared window procedure
    [AppWindow<T>::WndProc] and the [MainWindow<T>] destroy hook.

    The header is a thin layer over the Win32 API, so the platform is part of
    the model.  Its tables (registered classes, the [GWLP_USERDATA] slot of
    every handle, the calling thread's last error, posted quit requests) are
    fields of [World]; what the platform decides on its own (the answer of
    [DefWindowProc], the text of a system message, the messages sent while a
    window is created) is a field of [Platform], over which every theorem
    quantifies. *)

From stdpp Require Import gmap strings pretty list.
From Stdlib Require Import ZArith Lia Ascii String.

Local Open Scope Z_scope.

(** ** Machine integers

    The Win32 integer types, as [Z] with the wrap-around of each conversion
    written out.  [UINT_PTR], [LONG_PTR] and pointers have the width of the
    target: 32 bits in an x86 build, 64 bits in an x64 build. *)

Inductive Arch := x86 | x64.

Definition ptr_bits (a : Arch) : Z :=
  match a with x86 => 32 | x64 => 64 end.

Definition wrap_unsigned (bits v : Z) : Z := v mod 2 ^ bits.

Definition wrap_signed (bits v : Z) : Z :=
  (v + 2 ^ (bits - 1)) mod 2 ^ bits - 2 ^ (bits - 1).

Definition to_short : Z → Z := wrap_signed 16.
Definition to_DWORD : Z → Z := wrap_unsigned 32.
Definition to_UINT : Z → Z := wrap_unsigned 32.
Definition to_int : Z → Z := wrap_signed 32.
Definition to_BOOL : Z → Z := wrap_signed 32.
Definition to_LONG : Z → Z := wrap_signed 32.
Definition to_LPARAM (a : Arch) : Z → Z := wrap_signed (ptr_bits a).
Definition to_LRESULT (a : Arch) : Z → Z := wrap_signed (ptr_bits a).

(** [LOWORD], [HIWORD], [MAKELONG] and [MAKELPARAM] of the platform headers.
    [Z.land] on a negative [Z] is the two's complement one, so the
    [(DWORD_PTR)] conversion the macros start with is not written. *)

Definition LOWORD (l : Z) : Z := Z.land l 0xffff.
Definition HIWORD (l : Z) : Z := Z.land (Z.shiftr l 16) 0xffff.

Definition MAKELONG (a b : Z) : Z :=
  to_LONG (Z.lor (Z.land a 0xffff) (Z.shiftl (Z.land b 0xffff) 16)).

Definition MAKELPARAM (arch : Arch) (l h : Z) : Z :=
  to_LPARAM arch (to_DWORD (MAKELONG l h)).

(** ** Message codes and error codes used by the header *)

Definition WM_CREATE : Z := 0x0001.
Definition WM_DESTROY : Z := 0x0002.
Definition WM_PAINT : Z := 0x000F.
Definition WM_SETCURSOR : Z := 0x0020.
Definition WM_NCCREATE : Z := 0x0081.
Definition WM_NCHITTEST : Z := 0x0084.
Definition WM_MOUSEMOVE : Z := 0x0200.
Definition WM_LBUTTONUP : Z := 0x0202.

Definition ERROR_CANNOT_FIND_WND_CLASS : N := 1407.
Definition ERROR_CLASS_ALREADY_EXISTS : N := 1410.

Definition CS_DBLCLKS : Z := 0x0008.
Definition COLOR_WINDOW : Z := 5.

(** ** Strings

    A C string is modelled by the characters before its terminator. *)

Definition CRLF : string := String "013"%char (String "010"%char EmptyString).

Definition strlen (s : string) : nat := String.length s.

(** [description + n]: the C string that starts [n] characters in. *)
Definition str_from (n : nat) (s : string) : string :=
  substring n (strlen s - n) s.

(** [description[n] = '\0']: the C string cut after [n] characters. *)
Definition str_cut (n : nat) (s : string) : string := substring 0 n s.

(** ** The platform's own decisions *)

Record Msg := { msg_code : Z; msg_wParam : Z; msg_lParam : Z }.

Record Platform := {
  (** width of pointers and of [WPARAM], [LPARAM], [LRESULT] *)
  arch : Arch;
  (** the answer of the platform's default processing to a message; what
      else it does is outside the model *)
  DefWindowProc : Z → Z → Z → Z → Z;
  (** the system's description of an error code, when it has one *)
  system_message : N → option string;
  (** what a window procedure is sent during [CreateWindow], before and
      after [WM_NCCREATE] *)
  creation_prologue : list Msg;
  creation_epilogue : list Msg;
  (** where the platform keeps the [CREATESTRUCT] of a creation *)
  createstruct_addr : Z
}.

(** [FormatMessageA] with [FORMAT_MESSAGE_FROM_SYSTEM]: the number of
    characters stored (0 on failure) and the buffer. *)
Definition FormatMessageA (P : Platform) (error_code : N) : nat * string :=
  match system_message P error_code with
  | Some description => (strlen description, description)
  | None => (0%nat, EmptyString)
  end.

(** ** win32_error *)

Module win32_error.

(** lines 50-52: drop a trailing ["\r\n"] *)
Definition strip (description : string) : string :=
  let length := strlen description in
  if bool_decide (2 ≤ length)%nat
     && bool_decide (str_from (length - 2) description = CRLF)
  then str_cut (length - 2) description
  else description.

Definition format (P : Platform) (message : string) (error_code : N) : string :=
  let stream := message +:+ ": error " +:+ pretty error_code in
  let '(stored, description) := FormatMessageA P error_code in
  if bool_decide (stored ≠ 0%nat)
  then stream +:+ ": " +:+ strip description
  else stream.

End win32_error.

(** The exception: a [std::runtime_error] whose text is the formatted one. *)
Record win32_error := { what : string }.

Definition make_win32_error (P : Platform) (message : string) (error_code : N)
  : win32_error :=
  {| what := win32_error.format P message error_code |}.

(** ** Outcomes

    A call returns, leaves by a [win32_error], or has no defined behaviour
    (a member reached through a null or dangling pointer). *)

Inductive Fault :=
| null_this_call      (** [this_->on_message] with a null [this_] (line 202) *)
| bad_createstruct    (** [lParam] of [WM_NCCREATE] is not a [CREATESTRUCT] *)
| bad_create_param.   (** [lpCreateParams] is not a window object (line 183) *)

Inductive Outcome (A : Type) :=
| Returned (a : A)
| Raised (e : win32_error)
| Faulted (f : Fault).

Arguments Returned {A} a.
Arguments Raised {A} e.
Arguments Faulted {A} f.

Global Instance Outcome_ret : MRet Outcome := λ A a, Returned a.

Global Instance Outcome_bind : MBind Outcome := λ A B k o,
  match o with
  | Returned a => k a
  | Raised e => Raised e
  | Faulted f => Faulted f
  end.

(** ** Handler invocations

    Every handler that runs leaves a record: which implementation ran (the
    one declared by the concrete type [T], the one of [MainWindow<T>], or the
    default of [AppWindow<T>]), on which object, with which arguments. *)

Inductive Impl := in_T | in_MainWindow | in_AppWindow.

Inductive Call :=
| Call_on_destroy (i : Impl) (this hwnd : Z)
| Call_on_left_button_up (i : Impl) (this hwnd x y flags : Z)
| Call_on_mouse_move (i : Impl) (this hwnd x y flags : Z)
| Call_on_hittest (i : Impl) (this hwnd x y : Z)
| Call_on_paint (i : Impl) (this hwnd : Z)
| Call_on_set_cursor (i : Impl) (this hwnd hwndCursor codeHitTest msg : Z)
| Call_on_message (i : Impl) (this window message wParam lParam : Z).

Definition is_on_message (c : Call) : bool :=
  match c with Call_on_message _ _ _ _ _ _ => true | _ => false end.

Record WNDCLASSEX := {
  style : Z;
  lpfnWndProc : N;
  hbrBackground : Z;
  lpszClassName : string
}.

Section Model.

Context {U : Type}.

(** ** The state

    [U] is the state of the application, which is all that the handlers
    written by the application read and write. *)

Record World := {
  w_classes : gmap string WNDCLASSEX;  (** registered window classes *)
  w_userdata : gmap Z Z;               (** [GWLP_USERDATA] of each handle *)
  w_last_error : N;                    (** what [GetLastError] returns *)
  w_faults : list (option N);          (** failures the platform will report *)
  w_next_hwnd : positive;              (** the next handle the platform issues *)
  w_createstructs : gmap Z Z;          (** [lpCreateParams] of each [CREATESTRUCT] *)
  w_objects : gmap Z Z;                (** [m_window] of each window object *)
  w_quit : list Z;                     (** exit codes given to [PostQuitMessage] *)
  w_trace : list Call;                 (** handler invocations, newest first *)
  w_user : U
}.

Definition with_classes (c : gmap string WNDCLASSEX) (w : World) : World :=
  {| w_classes := c; w_userdata := w_userdata w; w_last_error := w_last_error w;
     w_faults := w_faults w; w_next_hwnd := w_next_hwnd w;
     w_createstructs := w_createstructs w; w_objects := w_objects w;
     w_quit := w_quit w; w_trace := w_trace w; w_user := w_user w |}.

Definition with_userdata (d : gmap Z Z) (w : World) : World :=
  {| w_classes := w_classes w; w_userdata := d; w_last_error := w_last_error w;
     w_faults := w_faults w; w_next_hwnd := w_next_hwnd w;
     w_createstructs := w_createstructs w; w_objects := w_objects w;
     w_quit := w_quit w; w_trace := w_trace w; w_user := w_user w |}.

Definition with_last_error (e : N) (w : World) : World :=
  {| w_classes := w_classes w; w_userdata := w_userdata w; w_last_error := e;
     w_faults := w_faults w; w_next_hwnd := w_next_hwnd w;
     w_createstructs := w_createstructs w; w_objects := w_objects w;
     w_quit := w_quit w; w_trace := w_trace w; w_user := w_user w |}.

Definition with_faults (f : list (option N)) (w : World) : World :=
  {| w_classes := w_classes w; w_userdata := w_userdata w;
     w_last_error := w_last_error w; w_faults := f; w_next_hwnd := w_next_hwnd w;
     w_createstructs := w_createstructs w; w_objects := w_objects w;
     w_quit := w_quit w; w_trace := w_trace w; w_user := w_user w |}.

Definition with_next_hwnd (n : positive) (w : World) : World :=
  {| w_classes := w_classes w; w_userdata := w_userdata w;
     w_last_error := w_last_error w; w_faults := w_faults w; w_next_hwnd := n;
     w_createstructs := w_createstructs w; w_objects := w_objects w;
     w_quit := w_quit w; w_trace := w_trace w; w_user := w_user w |}.

Definition with_createstructs (c : gmap Z Z) (w : World) : World :=
  {| w_classes := w_classes w; w_userdata := w_userdata w;
     w_last_error := w_last_error w; w_faults := w_faults w;
     w_next_hwnd := w_next_hwnd w; w_createstructs := c; w_objects := w_objects w;
     w_quit := w_quit w; w_trace := w_trace w; w_user := w_user w |}.

Definition with_objects (o : gmap Z Z) (w : World) : World :=
  {| w_classes := w_classes w; w_userdata := w_userdata w;
     w_last_error := w_last_error w; w_faults := w_faults w;
     w_next_hwnd := w_next_hwnd w; w_createstructs := w_createstructs w;
     w_objects := o; w_quit := w_quit w; w_trace := w_trace w;
     w_user := w_user w |}.

Definition with_quit (q : list Z) (w : World) : World :=
  {| w_classes := w_classes w; w_userdata := w_userdata w;
     w_last_error := w_last_error w; w_faults := w_faults w;
     w_next_hwnd := w_next_hwnd w; w_createstructs := w_createstructs w;
     w_objects := w_objects w; w_quit := q; w_trace := w_trace w;
     w_user := w_user w |}.

Definition with_trace (t : list Call) (w : World) : World :=
  {| w_classes := w_classes w; w_userdata := w_userdata w;
     w_last_error := w_last_error w; w_faults := w_faults w;
     w_next_hwnd := w_next_hwnd w; w_createstructs := w_createstructs w;
     w_objects := w_objects w; w_quit := w_quit w; w_trace := t;
     w_user := w_user w |}.

Definition with_user (u : U) (w : World) : World :=
  {| w_classes := w_classes w; w_userdata := w_userdata w;
     w_last_error := w_last_error w; w_faults := w_faults w;
     w_next_hwnd := w_next_hwnd w; w_createstructs := w_createstructs w;
     w_objects := w_objects w; w_quit := w_quit w; w_trace := w_trace w;
     w_user := u |}.

Definition record (c : Call) (w : World) : World :=
  with_trace (c :: w_trace w) w.

(** ** Platform calls on the tables *)

Definition GetLastError (w : World) : N := w_last_error w.

(** [GetWindowLongPtr (window, GWLP_USERDATA)]: a slot never written reads 0. *)
Definition GetWindowLongPtr (w : World) (window : Z) : Z :=
  default 0 (w_userdata w !! window).

(** [SetWindowLongPtr (window, GWLP_USERDATA, value)] *)
Definition SetWindowLongPtr (window value : Z) (w : World) : World :=
  with_userdata (<[window := value]> (w_userdata w)) w.

Definition PostQuitMessage (nExitCode : Z) (w : World) : World :=
  with_quit (nExitCode :: w_quit w) w.

(** ** A concrete window type [T]

    [T] derives from [AppWindow<T>], directly or through [MainWindow<T>],
    and may declare any of the handlers itself; a handler it declares hides
    the inherited one wherever the header calls through a [T *].  The first
    argument of each is [this]. *)

Inductive Base := AppWindow_base | MainWindow_base.

Record WindowType := {
  wt_base : Base;
  wt_WndProc : N;    (** the address of [AppWindow<T>::WndProc] *)
  T_on_destroy : option (Z → Z → U → U);
  T_on_left_button_up : option (Z → Z → Z → Z → Z → U → U);
  T_on_mouse_move : option (Z → Z → Z → Z → Z → U → U);
  T_on_hittest : option (Z → Z → Z → Z → U → U * Z);
  T_on_paint : option (Z → Z → U → U);
  T_on_set_cursor : option (Z → Z → Z → Z → Z → U → U * Z);
  T_on_message : option (Z → Z → Z → Z → Z → U → U * Z)
}.

Definition run_void (f : U → U) (w : World) : World :=
  with_user (f (w_user w)) w.

Definition run_value (f : U → U * Z) (w : World) : World * Z :=
  (with_user (f (w_user w)).1 w, (f (w_user w)).2).

End Model.

Arguments World U : clear implicits.
Arguments WindowType U : clear implicits.

(** ** Message crackers

    [HANDLE_MSG], [HANDLE_WM_*] and [FORWARD_WM_*] come from the platform's
    [WindowsX.h].  [HANDLE_MSG (hwnd, message, fn)] is
    [case (message): return HANDLE_##message ((hwnd), (wParam), (lParam), (fn))]:
    each supported code leaves the window procedure from inside the [switch]
    with the value of its cracker.  The conversions between a handle and a
    [WPARAM] change no bit and are not written. *)

Section Crackers.

Context {W : Type} (a : Arch).

(** [((fn)(hwnd), 0L)] *)
Definition HANDLE_WM_DESTROY (hwnd wParam lParam : Z)
    (fn : Z → W → W) (w : W) : W * Z :=
  (fn hwnd w, 0).

Definition HANDLE_WM_PAINT (hwnd wParam lParam : Z)
    (fn : Z → W → W) (w : W) : W * Z :=
  (fn hwnd w, 0).

(** [((fn)((hwnd), (int)(short)LOWORD(lParam), (int)(short)HIWORD(lParam),
           (UINT)(wParam)), 0L)] *)
Definition HANDLE_WM_LBUTTONUP (hwnd wParam lParam : Z)
    (fn : Z → Z → Z → Z → W → W) (w : W) : W * Z :=
  (fn hwnd (to_int (to_short (LOWORD lParam)))
      (to_int (to_short (HIWORD lParam))) (to_UINT wParam) w, 0).

Definition HANDLE_WM_MOUSEMOVE (hwnd wParam lParam : Z)
    (fn : Z → Z → Z → Z → W → W) (w : W) : W * Z :=
  (fn hwnd (to_int (to_short (LOWORD lParam)))
      (to_int (to_short (HIWORD lParam))) (to_UINT wParam) w, 0).

(** [(LRESULT)(DWORD)(UINT)(fn)((hwnd), (int)(short)LOWORD(lParam),
                               (int)(short)HIWORD(lParam))] *)
Definition HANDLE_WM_NCHITTEST (hwnd wParam lParam : Z)
    (fn : Z → Z → Z → W → W * Z) (w : W) : W * Z :=
  let r := fn hwnd (to_int (to_short (LOWORD lParam)))
              (to_int (to_short (HIWORD lParam))) w in
  (r.1, to_LRESULT a (to_DWORD (to_UINT r.2))).

(** [(UINT)(DWORD)(fn)((hwnd), WM_NCHITTEST, 0L, MAKELPARAM((x), (y)))] *)
Definition FORWARD_WM_NCHITTEST (hwnd x y : Z) (fn : Z → Z → Z → Z → Z) : Z :=
  to_UINT (to_DWORD (fn hwnd WM_NCHITTEST 0 (MAKELPARAM a x y))).

(** [(LRESULT)(DWORD)(BOOL)(fn)((hwnd), (HWND)(wParam), (UINT)LOWORD(lParam),
                               (UINT)HIWORD(lParam))] *)
Definition HANDLE_WM_SETCURSOR (hwnd wParam lParam : Z)
    (fn : Z → Z → Z → Z → W → W * Z) (w : W) : W * Z :=
  let r := fn hwnd wParam (to_UINT (LOWORD lParam)) (to_UINT (HIWORD lParam)) w in
  (r.1, to_LRESULT a (to_DWORD (to_BOOL r.2))).

(** [(BOOL)(DWORD)(fn)((hwnd), WM_SETCURSOR, (WPARAM)(HWND)(hwndCursor),
                      MAKELPARAM((codeHitTest), (msg)))] *)
Definition FORWARD_WM_SETCURSOR (hwnd hwndCursor codeHitTest msg : Z)
    (fn : Z → Z → Z → Z → Z) : Z :=
  to_BOOL (to_DWORD (fn hwnd WM_SETCURSOR hwndCursor
                        (MAKELPARAM a codeHitTest msg))).

End Crackers.

(** ** AppWindow<T> and MainWindow<T> *)

Record WindowCreationParams := { caption : string }.

Definition with_caption (caption : string) (p : WindowCreationParams)
  : WindowCreationParams :=
  {| caption := caption |}.

Section Window.

Context {U : Type} (P : Platform) (T : WindowType U).

Local Abbreviation World := (World U).

(** *** Default message handler implementations (lines 209-220) *)

Definition AppWindow_on_destroy (this hwnd : Z) (w : World) : World :=
  record (Call_on_destroy in_AppWindow this hwnd) w.

Definition AppWindow_on_hittest (this hwnd x y : Z) (w : World) : World * Z :=
  (record (Call_on_hittest in_AppWindow this hwnd x y) w,
   FORWARD_WM_NCHITTEST (arch P) hwnd x y (DefWindowProc P)).

Definition AppWindow_on_left_button_up (this hwnd x y flags : Z) (w : World)
  : World :=
  record (Call_on_left_button_up in_AppWindow this hwnd x y flags) w.

Definition AppWindow_on_mouse_move (this hwnd x y flags : Z) (w : World)
  : World :=
  record (Call_on_mouse_move in_AppWindow this hwnd x y flags) w.

Definition AppWindow_on_paint (this hwnd : Z) (w : World) : World :=
  record (Call_on_paint in_AppWindow this hwnd) w.

Definition AppWindow_on_set_cursor (this hwnd hwndCursor codeHitTest msg : Z)
    (w : World) : World * Z :=
  (record (Call_on_set_cursor in_AppWindow this hwnd hwndCursor codeHitTest msg) w,
   FORWARD_WM_SETCURSOR (arch P) hwnd hwndCursor codeHitTest msg (DefWindowProc P)).

(** [message] is an [int] here and a [UINT] again in [DefWindowProc]. *)
Definition AppWindow_on_message (this window message wParam lParam : Z)
    (w : World) : World * Z :=
  (record (Call_on_message in_AppWindow this window message wParam lParam) w,
   DefWindowProc P window (to_UINT message) wParam lParam).

(** *** MainWindow<T>::on_destroy (lines 233-236) *)

Definition MainWindow_on_destroy (this hwnd : Z) (w : World) : World :=
  PostQuitMessage 1 (record (Call_on_destroy in_MainWindow this hwnd) w).

(** *** Members as seen through a [T *]

    [this_->on_destroy] names what [T] declares, else what [MainWindow<T>]
    declares when [T] derives from it, else the default. *)

Definition on_destroy (this_ hwnd : Z) (w : World) : World :=
  match T_on_destroy T with
  | Some f => run_void (f this_ hwnd) (record (Call_on_destroy in_T this_ hwnd) w)
  | None =>
      match wt_base T with
      | MainWindow_base => MainWindow_on_destroy this_ hwnd w
      | AppWindow_base => AppWindow_on_destroy this_ hwnd w
      end
  end.

Definition on_left_button_up (this_ hwnd x y flags : Z) (w : World) : World :=
  match T_on_left_button_up T with
  | Some f => run_void (f this_ hwnd x y flags)
                (record (Call_on_left_button_up in_T this_ hwnd x y flags) w)
  | None => AppWindow_on_left_button_up this_ hwnd x y flags w
  end.

Definition on_mouse_move (this_ hwnd x y flags : Z) (w : World) : World :=
  match T_on_mouse_move T with
  | Some f => run_void (f this_ hwnd x y flags)
                (record (Call_on_mouse_move in_T this_ hwnd x y flags) w)
  | None => AppWindow_on_mouse_move this_ hwnd x y flags w
  end.

Definition on_hittest (this_ hwnd x y : Z) (w : World) : World * Z :=
  match T_on_hittest T with
  | Some f => run_value (f this_ hwnd x y)
                (record (Call_on_hittest in_T this_ hwnd x y) w)
  | None => AppWindow_on_hittest this_ hwnd x y w
  end.

Definition on_paint (this_ hwnd : Z) (w : World) : World :=
  match T_on_paint T with
  | Some f => run_void (f this_ hwnd) (record (Call_on_paint in_T this_ hwnd) w)
  | None => AppWindow_on_paint this_ hwnd w
  end.

Definition on_set_cursor (this_ hwnd hwndCursor codeHitTest msg : Z) (w : World)
  : World * Z :=
  match T_on_set_cursor T with
  | Some f => run_value (f this_ hwnd hwndCursor codeHitTest msg)
                (record (Call_on_set_cursor in_T this_ hwnd hwndCursor codeHitTest msg) w)
  | None => AppWindow_on_set_cursor this_ hwnd hwndCursor codeHitTest msg w
  end.

Definition on_message (this_ window message wParam lParam : Z) (w : World)
  : World * Z :=
  match T_on_message T with
  | Some f => run_value (f this_ window message wParam lParam)
                (record (Call_on_message in_T this_ window message wParam lParam) w)
  | None => AppWindow_on_message this_ window message wParam lParam w
  end.

(** *** WndProc (lines 178-203) *)

(** lines 180-185 *)
Definition bind_on_create (w : World) (window message lParam : Z)
  : Outcome World :=
  if bool_decide (message = WM_NCCREATE) then
    match w_createstructs w !! lParam with
    | None => Faulted bad_createstruct
    | Some param =>
        if bool_decide (param = 0) then Faulted bad_create_param else
        match w_objects w !! param with
        | None => Faulted bad_create_param
        | Some _ =>
            let w := with_objects (<[param := window]> (w_objects w)) w in
            Returned (SetWindowLongPtr window param w)
        end
    end
  else Returned w.

(** lines 191-199: [Some] is a [return] from inside the [switch], [None] is
    leaving the [switch] at its end *)
Definition switch_message (w : World) (this_ window message wParam lParam : Z)
  : option (World * Z) :=
  if bool_decide (message = WM_DESTROY) then
    Some (HANDLE_WM_DESTROY window wParam lParam (on_destroy this_) w)
  else if bool_decide (message = WM_LBUTTONUP) then
    Some (HANDLE_WM_LBUTTONUP window wParam lParam (on_left_button_up this_) w)
  else if bool_decide (message = WM_MOUSEMOVE) then
    Some (HANDLE_WM_MOUSEMOVE window wParam lParam (on_mouse_move this_) w)
  else if bool_decide (message = WM_NCHITTEST) then
    Some (HANDLE_WM_NCHITTEST (arch P) window wParam lParam (on_hittest this_) w)
  else if bool_decide (message = WM_PAINT) then
    Some (HANDLE_WM_PAINT window wParam lParam (on_paint this_) w)
  else if bool_decide (message = WM_SETCURSOR) then
    Some (HANDLE_WM_SETCURSOR (arch P) window wParam lParam (on_set_cursor this_) w)
  else None.

(** line 202: a member call through [this_], whatever [this_] is *)
Definition call_on_message (w : World) (this_ window message wParam lParam : Z)
  : Outcome (World * Z) :=
  if bool_decide (this_ = 0) then Faulted null_this_call
  else Returned (on_message this_ window (to_int message) wParam lParam w).

Definition WndProc (w : World) (window message wParam lParam : Z)
  : Outcome (World * Z) :=
  w ← bind_on_create w window message lParam;
  let this_ := GetWindowLongPtr w window in
  match (if bool_decide (this_ ≠ 0)
         then switch_message w this_ window message wParam lParam
         else None) with
  | Some r => Returned r
  | None => call_on_message w this_ window message wParam lParam
  end.

End Window.

(** ** Class registration and window creation *)

Section Construction.

Context {U : Type} (P : Platform) (T : WindowType U).

Local Abbreviation World := (World U).

(** lines 163-166: [std::to_wstring] of the address of [WndProc] *)
Definition get_class_name : string := pretty (wt_WndProc T).

(** The next failure the platform is going to report, if any. *)
Definition next_fault (w : World) : option N * World :=
  match w_faults w with
  | [] => (None, w)
  | f :: rest => (f, with_faults rest w)
  end.

(** The atom of a registered class; never 0. *)
Definition class_atom : Z := 0xC000.

(** [RegisterClassEx]: 0 and a last error when the platform fails or the
    name is taken, the atom of the new class otherwise. *)
Definition RegisterClassEx (wndclass : WNDCLASSEX) (w : World) : World * Z :=
  let '(fault, w) := next_fault w in
  match fault with
  | Some e => (with_last_error e w, 0)
  | None =>
      match w_classes w !! lpszClassName wndclass with
      | Some _ => (with_last_error ERROR_CLASS_ALREADY_EXISTS w, 0)
      | None =>
          (with_classes (<[lpszClassName wndclass := wndclass]> (w_classes w)) w,
           class_atom)
      end
  end.

(** lines 128-136: the descriptor of the class of [T] *)
Definition window_class : WNDCLASSEX :=
  {| style := CS_DBLCLKS; lpfnWndProc := wt_WndProc T;
     hbrBackground := COLOR_WINDOW + 1; lpszClassName := get_class_name |}.

(** lines 124-140 *)
Definition register_class (this : Z) (creation_params : WindowCreationParams)
    (w : World) : Outcome World :=
  let wndclass := window_class in
  let '(w, registered) := RegisterClassEx wndclass w in
  if bool_decide (registered = 0)
     && bool_decide (GetLastError w ≠ ERROR_CLASS_ALREADY_EXISTS)
  then Raised (make_win32_error P "RegisterClassEx" (GetLastError w))
  else Returned w.

(** A window procedure stops a creation by answering [FALSE] to
    [WM_NCCREATE] or -1 to [WM_CREATE]. *)
Definition vetoes (message result : Z) : bool :=
  bool_decide (message = WM_NCCREATE) && bool_decide (result = 0)
  || bool_decide (message = WM_CREATE) && bool_decide (result = -1).

(** The messages of a creation, handed one by one to the window procedure of
    the class; [false] when one of them stopped the creation. *)
Fixpoint send_creation (w : World) (window : Z) (msgs : list Msg)
  : Outcome (World * bool) :=
  match msgs with
  | [] => Returned (w, true)
  | m :: rest =>
      '(w, result) ← WndProc P T w window (msg_code m) (msg_wParam m) (msg_lParam m);
      if vetoes (msg_code m) result then Returned (w, false)
      else send_creation w window rest
  end.

Definition creation_messages : list Msg :=
  creation_prologue P
  ++ {| msg_code := WM_NCCREATE; msg_wParam := 0;
        msg_lParam := createstruct_addr P |}
  :: creation_epilogue P.

(** [CreateWindow (lpClassName, lpWindowName, ..., lpParam)]: the handle of
    the new window, or 0 and a last error.  The class named after the address
    of [WndProc] of [T] was registered with that procedure, which is the one
    the platform calls. *)
Definition CreateWindow (lpClassName lpWindowName : string) (lpParam : Z)
    (w : World) : Outcome (World * Z) :=
  match w_classes w !! lpClassName with
  | None => Returned (with_last_error ERROR_CANNOT_FIND_WND_CLASS w, 0)
  | Some _ =>
      let '(fault, w) := next_fault w in
      match fault with
      | Some e => Returned (with_last_error e w, 0)
      | None =>
          let window := Z.pos (w_next_hwnd w) in
          let w := with_next_hwnd (Pos.succ (w_next_hwnd w)) w in
          let w := with_createstructs
                     (<[createstruct_addr P := lpParam]> (w_createstructs w)) w in
          '(w, created) ← send_creation w window creation_messages;
          Returned (w, if (created : bool) then window else 0)
      end
  end.

(** lines 142-161 *)
Definition create (this : Z) (creation_params : WindowCreationParams)
    (w : World) : Outcome World :=
  let class_name := get_class_name in
  '(w, window) ← CreateWindow class_name (caption creation_params) this w;
  let w := with_objects (<[this := window]> (w_objects w)) w in
  if bool_decide (window = 0)
  then Raised (make_win32_error P "CreateWindow" (GetLastError w))
  else Returned w.

(** lines 76-79: [Window ()] leaves [m_window] null *)
Definition Window_ctor (this : Z) (w : World) : World :=
  with_objects (<[this := 0]> (w_objects w)) w.

(** lines 116-120 *)
Definition AppWindow_ctor (this : Z) (creation_params : WindowCreationParams)
    (w : World) : Outcome World :=
  let w := Window_ctor this w in
  w ← register_class this creation_params w;
  create this creation_params w.

(** [operator HWND ()] of the object at [this] *)
Definition m_window (w : World) (this : Z) : Z :=
  default 0 (w_objects w !! this).

End Construction.

(** * Properties *)

(** ** Conversions and payload fields *)

Lemma LOWORD_mod l : LOWORD l = l mod 2 ^ 16.
Proof. unfold LOWORD. change 0xffff with (Z.ones 16). by rewrite Z.land_ones. Qed.

Lemma HIWORD_mod l : HIWORD l = (l / 2 ^ 16) mod 2 ^ 16.
Proof.
  unfold HIWORD. change 0xffff with (Z.ones 16).
  rewrite Z.land_ones by lia. by rewrite Z.shiftr_div_pow2.
Qed.

Lemma wrap_unsigned_small bits v :
  0 ≤ v < 2 ^ bits → wrap_unsigned bits v = v.
Proof. intros. unfold wrap_unsigned. by apply Z.mod_small. Qed.

Lemma wrap_signed_small bits v :
  0 < bits → - 2 ^ (bits - 1) ≤ v < 2 ^ (bits - 1) → wrap_signed bits v = v.
Proof.
  intros Hb Hv. unfold wrap_signed.
  assert (2 ^ bits = 2 * 2 ^ (bits - 1)) as ->.
  { rewrite <- Z.pow_succ_r by lia. f_equal. lia. }
  set (p := 2 ^ (bits - 1)) in *.
  rewrite Z.mod_small by lia. lia.
Qed.

Lemma wrap_signed_range bits v :
  0 < bits → - 2 ^ (bits - 1) ≤ wrap_signed bits v < 2 ^ (bits - 1).
Proof.
  intros Hb. unfold wrap_signed.
  assert (2 ^ bits = 2 * 2 ^ (bits - 1)) as ->.
  { rewrite <- Z.pow_succ_r by lia. f_equal. lia. }
  assert (0 < 2 ^ (bits - 1)) by (apply Z.pow_pos_nonneg; lia).
  set (p := 2 ^ (bits - 1)) in *.
  pose proof (Z.mod_pos_bound (v + p) (2 * p)). lia.
Qed.

(** A signed wrap and the value it wraps agree modulo [2 ^ bits]. *)
Lemma wrap_signed_mod bits v :
  0 < bits → wrap_signed bits v mod 2 ^ bits = v mod 2 ^ bits.
Proof.
  intros Hb. unfold wrap_signed.
  assert (0 < 2 ^ bits) by (apply Z.pow_pos_nonneg; lia).
  rewrite <- Zminus_mod_idemp_l, Z.mod_mod by lia.
  rewrite Zminus_mod_idemp_l. f_equal. lia.
Qed.

Lemma wrap_signed_of_mod bits v :
  0 < bits → wrap_signed bits (v mod 2 ^ bits) = wrap_signed bits v.
Proof.
  intros Hb. unfold wrap_signed.
  assert (0 < 2 ^ bits) by (apply Z.pow_pos_nonneg; lia).
  by rewrite Zplus_mod_idemp_l.
Qed.

(** The coordinates and fields a message carries, by arithmetic on its
    payload words: two signed 16-bit coordinates (or two unsigned 16-bit
    fields) in the low 32 bits of [lParam], 32 bits of flags in [wParam]. *)

Definition signed16 (v : Z) : Z := if bool_decide (v < 2 ^ 15) then v else v - 2 ^ 16.

Definition low_field (lParam : Z) : Z := lParam mod 2 ^ 16.
Definition high_field (lParam : Z) : Z := (lParam / 2 ^ 16) mod 2 ^ 16.
Definition point_x (lParam : Z) : Z := signed16 (low_field lParam).
Definition point_y (lParam : Z) : Z := signed16 (high_field lParam).
Definition key_flags (wParam : Z) : Z := wParam mod 2 ^ 32.

Lemma to_short_field v : 0 ≤ v < 2 ^ 16 → to_int (to_short v) = signed16 v.
Proof.
  intros Hv. unfold to_int, to_short, signed16.
  assert (wrap_signed 16 v = if bool_decide (v < 2 ^ 15) then v else v - 2 ^ 16) as ->.
  { unfold wrap_signed. case_bool_decide.
    - rewrite Z.mod_small; lia.
    - replace (v + 2 ^ (16 - 1)) with (v - 2 ^ 15 + 1 * 2 ^ 16) by lia.
      rewrite Z.mod_add by lia. rewrite Z.mod_small; lia. }
  apply wrap_signed_small; [lia|]. case_bool_decide; lia.
Qed.

Lemma cracked_x lParam : to_int (to_short (LOWORD lParam)) = point_x lParam.
Proof.
  rewrite LOWORD_mod. apply to_short_field, Z.mod_pos_bound. lia.
Qed.

Lemma cracked_y lParam : to_int (to_short (HIWORD lParam)) = point_y lParam.
Proof.
  rewrite HIWORD_mod. apply to_short_field, Z.mod_pos_bound. lia.
Qed.

Lemma cracked_low lParam : to_UINT (LOWORD lParam) = low_field lParam.
Proof.
  rewrite LOWORD_mod. unfold low_field. apply wrap_unsigned_small.
  pose proof (Z.mod_pos_bound lParam (2 ^ 16)). lia.
Qed.

Lemma cracked_high lParam : to_UINT (HIWORD lParam) = high_field lParam.
Proof.
  rewrite HIWORD_mod. unfold high_field. apply wrap_unsigned_small.
  pose proof (Z.mod_pos_bound (lParam / 2 ^ 16) (2 ^ 16)). lia.
Qed.

Lemma signed16_mod v : 0 ≤ v < 2 ^ 16 → signed16 v mod 2 ^ 16 = v.
Proof.
  intros Hv. unfold signed16. case_bool_decide.
  - apply Z.mod_small. lia.
  - replace (v - 2 ^ 16) with (v + (-1) * 2 ^ 16) by lia.
    rewrite Z.mod_add by lia. apply Z.mod_small. lia.
Qed.

(** Packing the two 16-bit halves of a word gives its low 32 bits back. *)
Lemma pack_halves (x y l : Z) :
  x mod 2 ^ 16 = l mod 2 ^ 16 → y mod 2 ^ 16 = (l / 2 ^ 16) mod 2 ^ 16 →
  Z.lor (Z.land x 0xffff) (Z.shiftl (Z.land y 0xffff) 16) = l mod 2 ^ 32.
Proof.
  intros Hx Hy. change 0xffff with (Z.ones 16).
  rewrite !Z.land_ones, Hx, Hy by lia.
  apply Z.bits_inj'. intros n Hn.
  rewrite Z.lor_spec.
  destruct (decide (n < 16)) as [Hlt|Hge].
  - rewrite Z.shiftl_spec_low by lia.
    rewrite !Z.mod_pow2_bits_low by lia. by rewrite orb_false_r.
  - rewrite (Z.mod_pow2_bits_high l 16) by lia.
    rewrite Z.shiftl_spec by lia. simpl.
    destruct (decide (n < 32)).
    + rewrite !Z.mod_pow2_bits_low by lia.
      rewrite Z.div_pow2_bits by lia. f_equal. lia.
    + by rewrite !Z.mod_pow2_bits_high by lia.
Qed.

Lemma MAKELPARAM_halves a x y l :
  x mod 2 ^ 16 = l mod 2 ^ 16 → y mod 2 ^ 16 = (l / 2 ^ 16) mod 2 ^ 16 →
  MAKELPARAM a x y = to_LPARAM a (l mod 2 ^ 32).
Proof.
  intros Hx Hy. unfold MAKELPARAM, MAKELONG, to_LONG, to_DWORD.
  rewrite (pack_halves x y l Hx Hy). unfold wrap_unsigned.
  rewrite wrap_signed_mod by lia. by rewrite Z.mod_mod by lia.
Qed.

(** ** C strings *)

Lemma strlen_app s t : strlen (s +:+ t) = (strlen s + strlen t)%nat.
Proof. induction s as [|c s IH]; simpl; [done|]. by rewrite IH. Qed.

Lemma str_cut_app s t : str_cut (strlen s) (s +:+ t) = s.
Proof.
  unfold str_cut. induction s as [|c s IH]; simpl.
  - by destruct t.
  - by rewrite IH.
Qed.

Lemma substring_whole t : substring 0 (strlen t) t = t.
Proof. induction t as [|c t IH]; simpl; [done|]. by rewrite IH. Qed.

Lemma str_from_app s t : str_from (strlen s) (s +:+ t) = t.
Proof.
  unfold str_from. rewrite strlen_app.
  replace (strlen s + strlen t - strlen s)%nat with (strlen t) by lia.
  induction s as [|c s IH]; simpl; [apply substring_whole | exact IH].
Qed.

Lemma str_cut_from n s :
  (n ≤ strlen s)%nat → str_cut n s +:+ str_from n s = s.
Proof.
  unfold str_cut, str_from. revert n.
  induction s as [|c s IH]; intros [|n] Hn; simpl in *; try lia; try done.
  - change (String c (substring 0 (strlen s) s) = String c s).
    f_equal. apply substring_whole.
  - change (String c (substring 0 n s +:+ substring n (strlen s - n) s)
            = String c s).
    f_equal. apply IH. lia.
Qed.

Lemma strip_crlf body : win32_error.strip (body +:+ CRLF) = body.
Proof.
  unfold win32_error.strip. rewrite strlen_app. change (strlen CRLF) with 2%nat.
  replace (strlen body + 2 - 2)%nat with (strlen body) by lia.
  rewrite str_from_app, str_cut_app.
  rewrite bool_decide_eq_true_2 by lia. by rewrite bool_decide_eq_true_2.
Qed.

Lemma strip_other description :
  (∀ body, description ≠ body +:+ CRLF) → win32_error.strip description = description.
Proof.
  intros Hno. unfold win32_error.strip.
  case_bool_decide as Hlen; [|done]. case_bool_decide as Htail; [|done].
  exfalso. apply (Hno (str_cut (strlen description - 2) description)).
  rewrite <- Htail. symmetry. apply str_cut_from. lia.
Qed.

(** C9: the text of a failure is ["<message>: error <code>"], followed by
    [": "] and the platform's description of the code when the platform has
    one; a description that ends in a line break is appended without that
    line break (and without it only: a second line break before it stays),
    any other description is appended as it is. *)
Theorem format_text (P : Platform) (message : string) (error_code : N) :
  let head := message +:+ ": error " +:+ pretty error_code in
  match system_message P error_code with
  | None => win32_error.format P message error_code = head
  | Some description =>
      (description = EmptyString →
         win32_error.format P message error_code = head)
      ∧ (∀ body, description = body +:+ CRLF →
         win32_error.format P message error_code = head +:+ ": " +:+ body)
      ∧ (description ≠ EmptyString → (∀ body, description ≠ body +:+ CRLF) →
         win32_error.format P message error_code = head +:+ ": " +:+ description)
  end.
Proof.
  intros head. unfold win32_error.format, FormatMessageA.
  destruct (system_message P error_code) as [description|]; [|done].
  split; [|split].
  - by intros ->.
  - intros body ->. rewrite strip_crlf.
    rewrite bool_decide_eq_true_2; [done|].
    rewrite strlen_app. change (strlen CRLF) with 2%nat. lia.
  - intros Hne Hno. rewrite (strip_other _ Hno).
    rewrite bool_decide_eq_true_2; [done|]. by destruct description.
Qed.

Definition sample_messages (e : N) : option string :=
  if bool_decide (e = 5%N) then Some ("Access is denied." +:+ CRLF)
  else if bool_decide (e = 87%N) then Some ("The parameter is incorrect." +:+ CRLF +:+ CRLF)
  else None.

(** A platform whose default processing answers 7 to everything but a
    hit-test, which it answers with [HTERROR], and which sends [WM_CREATE]
    after [WM_NCCREATE]. *)
Definition sample_platform : Platform :=
  {| arch := x64;
     DefWindowProc := λ hwnd message wParam lParam,
       if bool_decide (message = WM_NCHITTEST) then -2 else 7;
     system_message := sample_messages;
     creation_prologue := [];
     creation_epilogue := [ {| msg_code := WM_CREATE; msg_wParam := 0; msg_lParam := 0 |} ];
     createstruct_addr := 4096 |}.

Lemma format_text_witness :
  win32_error.format sample_platform "CreateWindow" 5
    = "CreateWindow: error 5: Access is denied."
  ∧ win32_error.format sample_platform "CreateWindow" 87
    = "CreateWindow: error 87: The parameter is incorrect." +:+ CRLF
  ∧ win32_error.format sample_platform "CreateWindow" 6 = "CreateWindow: error 6".
Proof.
  split; [|split].
  - pose proof (format_text sample_platform "CreateWindow" 5) as H.
    simpl in H. destruct H as (_ & H & _).
    apply (H "Access is denied."). reflexivity.
  - pose proof (format_text sample_platform "CreateWindow" 87) as H.
    simpl in H. destruct H as (_ & H & _).
    apply (H ("The parameter is incorrect." +:+ CRLF)). reflexivity.
  - exact (format_text sample_platform "CreateWindow" 6).
Defined.

(** ** Class names *)

(** C7: the class name is a function of the address of the type's [WndProc]
    and of nothing else, and two types whose [WndProc] differ get different
    names. *)
Theorem class_names_distinct {U : Type} (T1 T2 : WindowType U) :
  get_class_name T1 = get_class_name T2 ↔ wt_WndProc T1 = wt_WndProc T2.
Proof.
  unfold get_class_name. split.
  - apply (inj pretty).
  - by intros ->.
Qed.

(** ** Routing *)

Section Routing.

Context {U : Type} (P : Platform) (T : WindowType U).

Local Abbreviation World := (World U).

(** Who declares the member that a call through a [T *] reaches. *)
Definition declared_by {A : Type} (own : option A) (inherited : Impl) : Impl :=
  match own with Some _ => in_T | None => inherited end.

Definition inherited_on_destroy : Impl :=
  match wt_base T with
  | MainWindow_base => in_MainWindow
  | AppWindow_base => in_AppWindow
  end.

(** The one handler a message is for, with the arguments the message
    carries. *)
Definition routed_call (this_ window message wParam lParam : Z) : Call :=
  if bool_decide (message = WM_DESTROY) then
    Call_on_destroy (declared_by (T_on_destroy T) inherited_on_destroy) this_ window
  else if bool_decide (message = WM_LBUTTONUP) then
    Call_on_left_button_up (declared_by (T_on_left_button_up T) in_AppWindow)
      this_ window (point_x lParam) (point_y lParam) (key_flags wParam)
  else if bool_decide (message = WM_MOUSEMOVE) then
    Call_on_mouse_move (declared_by (T_on_mouse_move T) in_AppWindow)
      this_ window (point_x lParam) (point_y lParam) (key_flags wParam)
  else if bool_decide (message = WM_NCHITTEST) then
    Call_on_hittest (declared_by (T_on_hittest T) in_AppWindow)
      this_ window (point_x lParam) (point_y lParam)
  else if bool_decide (message = WM_PAINT) then
    Call_on_paint (declared_by (T_on_paint T) in_AppWindow) this_ window
  else if bool_decide (message = WM_SETCURSOR) then
    Call_on_set_cursor (declared_by (T_on_set_cursor T) in_AppWindow)
      this_ window wParam (low_field lParam) (high_field lParam)
  else
    Call_on_message (declared_by (T_on_message T) in_AppWindow)
      this_ window (to_int message) wParam lParam.

(** What the handler of [T] for a message, when [T] declares one, does to
    the state of the application. *)
Definition routed_effect (this_ window message wParam lParam : Z) (u : U) : U :=
  if bool_decide (message = WM_DESTROY) then
    from_option (λ f, f this_ window u) u (T_on_destroy T)
  else if bool_decide (message = WM_LBUTTONUP) then
    from_option
      (λ f, f this_ window (point_x lParam) (point_y lParam) (key_flags wParam) u)
      u (T_on_left_button_up T)
  else if bool_decide (message = WM_MOUSEMOVE) then
    from_option
      (λ f, f this_ window (point_x lParam) (point_y lParam) (key_flags wParam) u)
      u (T_on_mouse_move T)
  else if bool_decide (message = WM_NCHITTEST) then
    from_option (λ f, (f this_ window (point_x lParam) (point_y lParam) u).1)
      u (T_on_hittest T)
  else if bool_decide (message = WM_PAINT) then
    from_option (λ f, f this_ window u) u (T_on_paint T)
  else if bool_decide (message = WM_SETCURSOR) then
    from_option
      (λ f, (f this_ window wParam (low_field lParam) (high_field lParam) u).1)
      u (T_on_set_cursor T)
  else
    from_option (λ f, (f this_ window (to_int message) wParam lParam u).1)
      u (T_on_message T).

Definition supported (message : Z) : Prop :=
  message ∈ [WM_DESTROY; WM_LBUTTONUP; WM_MOUSEMOVE; WM_NCHITTEST; WM_PAINT;
             WM_SETCURSOR].

Lemma supported_cases message :
  supported message ↔
    message = WM_DESTROY ∨ message = WM_LBUTTONUP ∨ message = WM_MOUSEMOVE
    ∨ message = WM_NCHITTEST ∨ message = WM_PAINT ∨ message = WM_SETCURSOR.
Proof. unfold supported. rewrite !elem_of_cons, elem_of_nil. tauto. Qed.

Ltac crack :=
  unfold HANDLE_WM_DESTROY, HANDLE_WM_LBUTTONUP, HANDLE_WM_MOUSEMOVE,
    HANDLE_WM_NCHITTEST, HANDLE_WM_PAINT, HANDLE_WM_SETCURSOR,
    on_destroy, on_left_button_up, on_mouse_move, on_hittest, on_paint,
    on_set_cursor, on_message, declared_by, inherited_on_destroy,
    AppWindow_on_destroy, AppWindow_on_left_button_up, AppWindow_on_mouse_move,
    AppWindow_on_hittest, AppWindow_on_paint, AppWindow_on_set_cursor,
    AppWindow_on_message, MainWindow_on_destroy;
  rewrite ?cracked_x, ?cracked_y, ?cracked_low, ?cracked_high;
  fold (key_flags).

(** What the [switch] does with an owner: one handler, the routed one. *)
Lemma switch_message_routed (w : World) (this_ window message wParam lParam : Z) :
  match switch_message P T w this_ window message wParam lParam with
  | Some (w', _) =>
      supported message
      ∧ w_trace w' = routed_call this_ window message wParam lParam :: w_trace w
      ∧ w_user w' = routed_effect this_ window message wParam lParam (w_user w)
  | None => ¬ supported message
  end.
Proof.
  unfold switch_message, routed_call, routed_effect.
  repeat case_bool_decide; subst; crack; cbn beta iota;
    rewrite supported_cases;
    try (split; [tauto|]);
    try (destruct (T_on_destroy T), (wt_base T); done);
    try (destruct (T_on_left_button_up T); done);
    try (destruct (T_on_mouse_move T); done);
    try (destruct (T_on_hittest T); done);
    try (destruct (T_on_paint T); done);
    try (destruct (T_on_set_cursor T); done).
  tauto.
Qed.

End Routing.

(** ** The window procedure *)

Section Dispatch.

Context {U : Type} (P : Platform) (T : WindowType U).

Local Abbreviation World := (World U).

(** Handlers leave the platform's tables and the window objects alone. *)
Definition same_tables (w w' : World) : Prop :=
  w_classes w' = w_classes w ∧ w_userdata w' = w_userdata w
  ∧ w_last_error w' = w_last_error w ∧ w_faults w' = w_faults w
  ∧ w_next_hwnd w' = w_next_hwnd w
  ∧ w_createstructs w' = w_createstructs w ∧ w_objects w' = w_objects w.

Lemma same_tables_refl w : same_tables w w.
Proof. by repeat split. Qed.

Lemma same_tables_trans w1 w2 w3 :
  same_tables w1 w2 → same_tables w2 w3 → same_tables w1 w3.
Proof.
  intros (?&?&?&?&?&?&?) (?&?&?&?&?&?&?). repeat split; congruence.
Qed.

Ltac handlers :=
  unfold HANDLE_WM_DESTROY, HANDLE_WM_LBUTTONUP, HANDLE_WM_MOUSEMOVE,
    HANDLE_WM_NCHITTEST, HANDLE_WM_PAINT, HANDLE_WM_SETCURSOR,
    on_destroy, on_left_button_up, on_mouse_move, on_hittest, on_paint,
    on_set_cursor, on_message,
    AppWindow_on_destroy, AppWindow_on_left_button_up, AppWindow_on_mouse_move,
    AppWindow_on_hittest, AppWindow_on_paint, AppWindow_on_set_cursor,
    AppWindow_on_message, MainWindow_on_destroy.

Lemma switch_message_tables w this_ window message wParam lParam w' result :
  switch_message P T w this_ window message wParam lParam = Some (w', result) →
  same_tables w w'.
Proof.
  unfold switch_message. repeat case_bool_decide; intros [= <- <-]; handlers;
    try (destruct (T_on_destroy T), (wt_base T); by repeat split);
    try (destruct (T_on_left_button_up T); by repeat split);
    try (destruct (T_on_mouse_move T); by repeat split);
    try (destruct (T_on_hittest T); by repeat split);
    try (destruct (T_on_paint T); by repeat split);
    try (destruct (T_on_set_cursor T); by repeat split).
Qed.

(** Whether [this_->on_destroy] is the hook of [MainWindow<T>]. *)
Definition destroy_hook_inherited : bool :=
  match T_on_destroy T, wt_base T with
  | None, MainWindow_base => true
  | _, _ => false
  end.

(** Only the destroy hook of [MainWindow<T>] asks the pump to stop. *)
Lemma switch_message_quit w this_ window message wParam lParam w' result :
  switch_message P T w this_ window message wParam lParam = Some (w', result) →
  w_quit w' =
    if bool_decide (message = WM_DESTROY) && destroy_hook_inherited
    then 1 :: w_quit w else w_quit w.
Proof.
  unfold switch_message, destroy_hook_inherited.
  repeat case_bool_decide; try done; intros [= <- <-]; handlers;
    try (by destruct (T_on_destroy T), (wt_base T));
    try (by destruct (T_on_left_button_up T));
    try (by destruct (T_on_mouse_move T));
    try (by destruct (T_on_hittest T));
    try (by destruct (T_on_paint T));
    try (by destruct (T_on_set_cursor T)).
Qed.

(** The messages whose handler has nothing to answer. *)
Definition answerless (message : Z) : Prop :=
  message ∈ [WM_DESTROY; WM_LBUTTONUP; WM_MOUSEMOVE; WM_PAINT].

Lemma switch_message_answerless w this_ window message wParam lParam w' result :
  answerless message →
  switch_message P T w this_ window message wParam lParam = Some (w', result) →
  result = 0.
Proof.
  unfold answerless. rewrite !elem_of_cons, elem_of_nil.
  intros [->|[->|[->|[->|[]]]]]; by intros [= <- <-].
Qed.

Lemma on_message_spec this_ window message wParam lParam w :
  let r := on_message P T this_ window message wParam lParam w in
  same_tables w r.1
  ∧ w_quit r.1 = w_quit w
  ∧ w_trace r.1
    = Call_on_message (declared_by (T_on_message T) in_AppWindow)
        this_ window message wParam lParam :: w_trace w
  ∧ w_user r.1
    = from_option (λ f, (f this_ window message wParam lParam (w_user w)).1)
        (w_user w) (T_on_message T)
  ∧ (T_on_message T = None →
     r.2 = DefWindowProc P window (to_UINT message) wParam lParam).
Proof.
  unfold on_message, AppWindow_on_message.
  destruct (T_on_message T); simpl; by repeat split.
Qed.

(** A message other than the creation message skips lines 180-185. *)
Lemma bind_on_create_other (w : World) window message lParam :
  message ≠ WM_NCCREATE → bind_on_create w window message lParam = Returned w.
Proof. intros. unfold bind_on_create. by rewrite bool_decide_eq_false_2. Qed.

(** The creation message binds: it stores the handle in the object that
    [lpCreateParams] points at, and the object's address in the slot of the
    handle. *)
Lemma bind_on_create_binds (w w1 : World) window lParam :
  bind_on_create w window WM_NCCREATE lParam = Returned w1 →
  ∃ param, w_createstructs w !! lParam = Some param ∧ param ≠ 0
    ∧ w_userdata w1 = <[window := param]> (w_userdata w)
    ∧ w_objects w1 = <[param := window]> (w_objects w)
    ∧ w_createstructs w1 = w_createstructs w
    ∧ w_classes w1 = w_classes w ∧ w_last_error w1 = w_last_error w
    ∧ w_faults w1 = w_faults w ∧ w_next_hwnd w1 = w_next_hwnd w
    ∧ w_quit w1 = w_quit w ∧ w_trace w1 = w_trace w ∧ w_user w1 = w_user w.
Proof.
  unfold bind_on_create. rewrite bool_decide_eq_true_2 by done.
  destruct (w_createstructs w !! lParam) as [param|]; [|done].
  case_bool_decide; [done|].
  destruct (w_objects w !! param); [|done].
  intros [= <-]. exists param. by repeat split.
Qed.

(** Dispatch to an owner: the window procedure returns, and exactly one
    handler has run, the routed one. *)
Lemma WndProc_owner (w w1 : World) window message wParam lParam this_ :
  bind_on_create w window message lParam = Returned w1 →
  GetWindowLongPtr w1 window = this_ → this_ ≠ 0 →
  ∃ w' result,
    WndProc P T w window message wParam lParam = Returned (w', result)
    ∧ w_trace w' = routed_call T this_ window message wParam lParam :: w_trace w1
    ∧ w_user w' = routed_effect T this_ window message wParam lParam (w_user w1)
    ∧ same_tables w1 w'
    ∧ (answerless message → result = 0)
    ∧ (¬ supported message →
       w_quit w' = w_quit w1
       ∧ result = (on_message P T this_ window (to_int message) wParam lParam w1).2).
Proof.
  intros Hbind Hown Hnn. unfold WndProc. rewrite Hbind. cbn [mbind Outcome_bind].
  rewrite Hown, bool_decide_eq_true_2 by done.
  pose proof (switch_message_routed P T w1 this_ window message wParam lParam) as Hsw.
  destruct (switch_message P T w1 this_ window message wParam lParam)
    as [[w' result]|] eqn:Hswitch.
  - destruct Hsw as (Hsup & Htrace & Huser). exists w', result.
    split_and!; try done.
    + by eapply switch_message_tables.
    + intros Hvoid. by eapply switch_message_answerless.
  - unfold call_on_message. rewrite bool_decide_eq_false_2 by done.
    pose proof (on_message_spec this_ window (to_int message) wParam lParam w1)
      as (Htab & Hquit & Htrace & Huser & _).
    destruct (on_message P T this_ window (to_int message) wParam lParam w1)
      as [w' result] eqn:Hon. simpl in *.
    exists w', result. split; [done|].
    assert (routed_call T this_ window message wParam lParam
            = Call_on_message (declared_by (T_on_message T) in_AppWindow)
                this_ window (to_int message) wParam lParam) as ->.
    { unfold routed_call. rewrite supported_cases in Hsw.
      repeat case_bool_decide; tauto. }
    assert (routed_effect T this_ window message wParam lParam (w_user w1)
            = from_option
                (λ f, (f this_ window (to_int message) wParam lParam (w_user w1)).1)
                (w_user w1) (T_on_message T)) as ->.
    { unfold routed_effect. rewrite supported_cases in Hsw.
      repeat case_bool_decide; tauto. }
    split_and!; try done.
    intros Hvoid. exfalso. apply Hsw. rewrite supported_cases.
    unfold answerless in Hvoid. rewrite !elem_of_cons, elem_of_nil in Hvoid. tauto.
Qed.

End Dispatch.

(** ** The message pump *)

Section Pump.

Context {U : Type} (P : Platform) (T : WindowType U).

Local Abbreviation World := (World U).

(** Messages for windows of type [T], handed to the window procedure one
    after the other. *)
Fixpoint deliver (w : World) (msgs : list (Z * Msg)) : Outcome World :=
  match msgs with
  | [] => Returned w
  | m :: rest =>
      '(w, _) ← WndProc P T w m.1 (msg_code m.2) (msg_wParam m.2) (msg_lParam m.2);
      deliver w rest
  end.

Lemma WndProc_other_tables (w w' : World) window message wParam lParam result :
  message ≠ WM_NCCREATE →
  WndProc P T w window message wParam lParam = Returned (w', result) →
  same_tables w w'.
Proof.
  intros Hne Hret.
  destruct (decide (GetWindowLongPtr w window = 0)) as [Hnull|Hown].
  - unfold WndProc in Hret. rewrite bind_on_create_other in Hret by done.
    cbn [mbind Outcome_bind] in Hret.
    rewrite Hnull in Hret. rewrite bool_decide_eq_false_2 in Hret by naive_solver.
    unfold call_on_message in Hret. by rewrite bool_decide_eq_true_2 in Hret.
  - destruct (WndProc_owner P T w w window message wParam lParam _
                (bind_on_create_other w window message lParam Hne) eq_refl Hown)
      as (w2 & r2 & Hret2 & _ & _ & Htab & _).
    rewrite Hret in Hret2. by injection Hret2 as <- <-.
Qed.

Lemma deliver_other_tables (msgs : list (Z * Msg)) (w w' : World) :
  Forall (λ m, msg_code m.2 ≠ WM_NCCREATE) msgs →
  deliver w msgs = Returned w' → same_tables w w'.
Proof.
  intros Hmsgs. revert w. induction Hmsgs as [|m rest Hm _ IH]; intros w; simpl.
  - intros [= <-]. apply same_tables_refl.
  - destruct (WndProc P T w m.1 (msg_code m.2) (msg_wParam m.2) (msg_lParam m.2))
      as [[w1 r]| |] eqn:Hstep; cbn [mbind Outcome_bind]; try done.
    intros Hrest. eapply same_tables_trans; [|by apply IH].
    by eapply WndProc_other_tables.
Qed.

Lemma deliver_owner_returns (msgs : list (Z * Msg)) (w : World) :
  Forall (λ m, msg_code m.2 ≠ WM_NCCREATE ∧ GetWindowLongPtr w m.1 ≠ 0) msgs →
  ∃ w', deliver w msgs = Returned w'.
Proof.
  revert w. induction msgs as [|m rest IH]; intros w Hmsgs; simpl.
  - by eexists.
  - apply Forall_cons in Hmsgs as [[Hne Hown] Hrest].
    destruct (WndProc_owner P T w w m.1 (msg_code m.2) (msg_wParam m.2)
                (msg_lParam m.2) _
                (bind_on_create_other w _ _ _ Hne) eq_refl Hown)
      as (w1 & r1 & -> & _ & _ & Htab & _).
    cbn [mbind Outcome_bind]. apply IH.
    eapply Forall_impl; [exact Hrest|]. intros m' [? Hown'].
    split; [done|]. unfold GetWindowLongPtr in *.
    destruct Htab as (_ & -> & _). done.
Qed.

End Pump.

(** ** Answers that cross a 32-bit handler *)

(** The low 32 bits of a value, as a [LONG_PTR]: what is left of an [LRESULT]
    or an [LPARAM] after it went through a [UINT], a [BOOL] or the two 16-bit
    arguments of a handler. *)
Definition low_dword (a : Arch) (v : Z) : Z :=
  wrap_signed (ptr_bits a) (v mod 2 ^ 32).

(** The values that [low_dword] gives back unchanged. *)
Definition fits_low_dword (a : Arch) (v : Z) : Prop :=
  match a with
  | x86 => - 2 ^ 31 ≤ v < 2 ^ 31
  | x64 => 0 ≤ v < 2 ^ 32
  end.

Lemma low_dword_fits a v : fits_low_dword a v → low_dword a v = v.
Proof.
  unfold low_dword. destruct a; simpl; intros Hv.
  - rewrite wrap_signed_of_mod by lia. apply wrap_signed_small; lia.
  - rewrite Z.mod_small by lia. apply wrap_signed_small; lia.
Qed.

Lemma through_UINT a v :
  to_LRESULT a (to_DWORD (to_UINT (to_UINT (to_DWORD v)))) = low_dword a v.
Proof.
  unfold to_LRESULT, to_DWORD, to_UINT, wrap_unsigned, low_dword.
  by rewrite !Z.mod_mod by lia.
Qed.

Lemma through_BOOL a v :
  to_LRESULT a (to_DWORD (to_BOOL (to_BOOL (to_DWORD v)))) = low_dword a v.
Proof.
  unfold to_LRESULT, to_DWORD, to_BOOL, low_dword. f_equal.
  rewrite (wrap_signed_small 32 (wrap_signed 32 _))
    by (try apply wrap_signed_range; lia).
  unfold wrap_unsigned. rewrite wrap_signed_mod by lia.
  by rewrite Z.mod_mod by lia.
Qed.

Lemma MAKELPARAM_point a lParam :
  MAKELPARAM a (point_x lParam) (point_y lParam) = low_dword a lParam.
Proof.
  apply MAKELPARAM_halves; unfold point_x, point_y, low_field, high_field;
    apply signed16_mod, Z.mod_pos_bound; lia.
Qed.

Lemma MAKELPARAM_fields a lParam :
  MAKELPARAM a (low_field lParam) (high_field lParam) = low_dword a lParam.
Proof.
  apply MAKELPARAM_halves; unfold low_field, high_field;
    by rewrite Z.mod_mod by lia.
Qed.

Lemma halves_split a k :
  0 ≤ a < 2 ^ 16 →
  (a + 2 ^ 16 * k) mod 2 ^ 16 = a ∧ (a + 2 ^ 16 * k) / 2 ^ 16 = k.
Proof.
  intros Ha. replace (a + 2 ^ 16 * k) with (a + k * 2 ^ 16) by lia.
  rewrite Z.mod_add, Z.div_add by lia.
  rewrite Z.mod_small, Z.div_small by lia. lia.
Qed.

Lemma halves_of_low_dword v :
  (v mod 2 ^ 32) mod 2 ^ 16 = v mod 2 ^ 16
  ∧ ((v mod 2 ^ 32) / 2 ^ 16) mod 2 ^ 16 = (v / 2 ^ 16) mod 2 ^ 16.
Proof.
  change (2 ^ 32) with (2 ^ 16 * 2 ^ 16). rewrite Z.rem_mul_r by lia.
  destruct (halves_split (v mod 2 ^ 16) ((v / 2 ^ 16) mod 2 ^ 16)) as [-> ->].
  { apply Z.mod_pos_bound. lia. }
  by rewrite Z.mod_mod by lia.
Qed.

(** What the platform packs is what the cracker unpacks. *)
Lemma point_of_MAKELPARAM a x y :
  - 2 ^ 15 ≤ x < 2 ^ 15 → - 2 ^ 15 ≤ y < 2 ^ 15 →
  point_x (MAKELPARAM a x y) = x ∧ point_y (MAKELPARAM a x y) = y.
Proof.
  intros Hx Hy.
  assert (∀ v, - 2 ^ 15 ≤ v < 2 ^ 15 → signed16 (v mod 2 ^ 16) = v) as Hs.
  { intros v Hv. unfold signed16. destruct (decide (0 ≤ v)).
    - rewrite Z.mod_small by lia. rewrite bool_decide_eq_true_2; lia.
    - replace (v mod 2 ^ 16) with (v + 2 ^ 16).
      + rewrite bool_decide_eq_false_2; lia.
      + apply Z.mod_unique with (-1); lia. }
  set (l := x mod 2 ^ 16 + 2 ^ 16 * (y mod 2 ^ 16)).
  pose proof (Z.mod_pos_bound x (2 ^ 16)). pose proof (Z.mod_pos_bound y (2 ^ 16)).
  destruct (halves_split (x mod 2 ^ 16) (y mod 2 ^ 16)) as [Hlo Hhi]; [lia|].
  fold l in Hlo, Hhi.
  assert (0 ≤ l < 2 ^ 32) as Hl by (unfold l; lia).
  rewrite (MAKELPARAM_halves a x y l); [|done|by rewrite Hhi, Z.mod_mod by lia].
  rewrite Z.mod_small by done.
  assert (to_LPARAM a l mod 2 ^ 32 = l) as Hmod.
  { unfold to_LPARAM. destruct a; simpl.
    - rewrite wrap_signed_mod by lia. by apply Z.mod_small.
    - rewrite wrap_signed_small by lia. by apply Z.mod_small. }
  destruct (halves_of_low_dword (to_LPARAM a l)) as [Hlow Hhigh].
  unfold point_x, point_y, low_field, high_field.
  rewrite <- Hlow, <- Hhigh, Hmod, Hlo, Hhi, Z.mod_mod by lia.
  split; by apply Hs.
Qed.

(** ** Dispatch, as the specification states it *)

Section DispatchClaims.

Context {U : Type} (P : Platform) (T : WindowType U).

Local Abbreviation World := (World U).

(** C2: a message for a handle that has an owner makes the window procedure
    return after exactly one handler ran on the owner.  For each of the six
    supported codes it is the handler of that code, in the version the
    concrete type declares whenever it declares one (the application's state
    is then what that version makes of it), with the coordinates, flags and
    fields that the two payload words carry; for any other code it is
    [on_message], with the message as it came. *)
Theorem dispatch_routes (w w1 : World) (window message wParam lParam this_ : Z) :
  bind_on_create w window message lParam = Returned w1 →
  GetWindowLongPtr w1 window = this_ → this_ ≠ 0 →
  ∃ w' result,
    WndProc P T w window message wParam lParam = Returned (w', result)
    ∧ w_trace w' = routed_call T this_ window message wParam lParam :: w_trace w1
    ∧ w_user w' = routed_effect T this_ window message wParam lParam (w_user w1)
    ∧ (supported message ↔
       is_on_message (routed_call T this_ window message wParam lParam) = false).
Proof.
  intros Hbind Hown Hnn.
  destruct (WndProc_owner P T w w1 window message wParam lParam this_
              Hbind Hown Hnn) as (w' & result & Hret & Htrace & Huser & _).
  exists w', result. split_and!; try done.
  rewrite supported_cases. unfold routed_call.
  repeat case_bool_decide; simpl; intuition congruence.
Qed.

(** C3: when the slot of the handle holds no owner, the window procedure
    skips the [switch] and still makes its last call, [this_->on_message],
    through the null pointer it recovered. *)
Theorem unbound_dispatch_calls_through_null
    (w w1 : World) (window message wParam lParam : Z) :
  bind_on_create w window message lParam = Returned w1 →
  GetWindowLongPtr w1 window = 0 →
  WndProc P T w window message wParam lParam
    = call_on_message P T w1 0 window message wParam lParam
  ∧ call_on_message P T w1 0 window message wParam lParam
    = Faulted null_this_call.
Proof.
  intros Hbind Hnull. split; [|done].
  unfold WndProc. rewrite Hbind. cbn [mbind Outcome_bind].
  rewrite Hnull. by rewrite bool_decide_eq_false_2 by naive_solver.
Qed.

(** C4, amended: for a supported message whose handler has nothing to answer,
    the window procedure returns 0 right after that handler, and
    [on_message] does not run; what [on_message] returns is what the window
    procedure returns for the codes that have no handler of their own. *)
Theorem answerless_messages_return_zero
    (w : World) (window message wParam lParam this_ : Z) :
  message ≠ WM_NCCREATE →
  GetWindowLongPtr w window = this_ → this_ ≠ 0 →
  (answerless message →
     ∃ w' call,
       WndProc P T w window message wParam lParam = Returned (w', 0)
       ∧ w_trace w' = call :: w_trace w ∧ is_on_message call = false)
  ∧ (¬ supported message →
     WndProc P T w window message wParam lParam
       = Returned (on_message P T this_ window (to_int message) wParam lParam w)).
Proof.
  intros Hne Hown Hnn. split.
  - intros Hvoid.
    destruct (WndProc_owner P T w w window message wParam lParam this_
                (bind_on_create_other w _ _ _ Hne) Hown Hnn)
      as (w' & result & Hret & Htrace & _ & _ & Hzero & _).
    rewrite (Hzero Hvoid) in Hret.
    exists w', (routed_call T this_ window message wParam lParam).
    split_and!; [done..|].
    unfold answerless in Hvoid. rewrite !elem_of_cons, elem_of_nil in Hvoid.
    unfold routed_call. repeat case_bool_decide; simpl; intuition congruence.
  - intros Hunsupported. unfold WndProc.
    rewrite bind_on_create_other by done. cbn [mbind Outcome_bind].
    rewrite Hown, bool_decide_eq_true_2 by done.
    pose proof (switch_message_routed P T w this_ window message wParam lParam)
      as Hsw.
    destruct (switch_message P T w this_ window message wParam lParam)
      as [[w' result]|]; [by destruct Hsw as [? _]|].
    unfold call_on_message. by rewrite bool_decide_eq_false_2.
Qed.

(** C10, amended: when the concrete type declares no [on_hittest] (no
    [on_set_cursor]), the window procedure returns the low 32 bits of what
    the platform's default processing answers to the message rebuilt from the
    handler's arguments: the low 32 bits of [lParam], and for a hit-test a
    [wParam] of 0.  That is the answer of the default processing to the
    message itself whenever the message is already of that form and the
    answer fits. *)
Theorem default_answers_forwarded
    (w : World) (window wParam lParam this_ : Z) :
  GetWindowLongPtr w window = this_ → this_ ≠ 0 →
  (T_on_hittest T = None →
     ∃ w', WndProc P T w window WM_NCHITTEST wParam lParam
           = Returned (w', low_dword (arch P)
                             (DefWindowProc P window WM_NCHITTEST 0
                                (low_dword (arch P) lParam))))
  ∧ (T_on_set_cursor T = None →
     ∃ w', WndProc P T w window WM_SETCURSOR wParam lParam
           = Returned (w', low_dword (arch P)
                             (DefWindowProc P window WM_SETCURSOR wParam
                                (low_dword (arch P) lParam))))
  ∧ (∀ message,
       message = WM_NCHITTEST ∧ T_on_hittest T = None ∧ wParam = 0
       ∨ message = WM_SETCURSOR ∧ T_on_set_cursor T = None →
       fits_low_dword (arch P) lParam →
       fits_low_dword (arch P) (DefWindowProc P window message wParam lParam) →
       ∃ w', WndProc P T w window message wParam lParam
             = Returned (w', DefWindowProc P window message wParam lParam)).
Proof.
  intros Hown Hnn.
  assert (T_on_hittest T = None →
     ∃ w', WndProc P T w window WM_NCHITTEST wParam lParam
           = Returned (w', low_dword (arch P)
                             (DefWindowProc P window WM_NCHITTEST 0
                                (low_dword (arch P) lParam)))) as Hhit.
  { intros Hnone. unfold WndProc.
    rewrite bind_on_create_other by done. cbn [mbind Outcome_bind].
    rewrite Hown, bool_decide_eq_true_2 by done.
    unfold switch_message. repeat case_bool_decide; try done.
    unfold HANDLE_WM_NCHITTEST, on_hittest. rewrite Hnone.
    unfold AppWindow_on_hittest, FORWARD_WM_NCHITTEST. cbn [fst snd].
    rewrite cracked_x, cracked_y, MAKELPARAM_point, through_UINT. by eexists. }
  assert (T_on_set_cursor T = None →
     ∃ w', WndProc P T w window WM_SETCURSOR wParam lParam
           = Returned (w', low_dword (arch P)
                             (DefWindowProc P window WM_SETCURSOR wParam
                                (low_dword (arch P) lParam)))) as Hcur.
  { intros Hnone. unfold WndProc.
    rewrite bind_on_create_other by done. cbn [mbind Outcome_bind].
    rewrite Hown, bool_decide_eq_true_2 by done.
    unfold switch_message. repeat case_bool_decide; try done.
    unfold HANDLE_WM_SETCURSOR, on_set_cursor. rewrite Hnone.
    unfold AppWindow_on_set_cursor, FORWARD_WM_SETCURSOR. cbn [fst snd].
    rewrite cracked_low, cracked_high, MAKELPARAM_fields, through_BOOL.
    by eexists. }
  split_and!; [done..|].
  intros message [(-> & Hnone & ->)|(-> & Hnone)] Hl Hr.
  - destruct (Hhit Hnone) as [w' Hret]. exists w'.
    rewrite (low_dword_fits _ _ Hl) in Hret. by rewrite (low_dword_fits _ _ Hr) in Hret.
  - destruct (Hcur Hnone) as [w' Hret]. exists w'.
    rewrite (low_dword_fits _ _ Hl) in Hret. by rewrite (low_dword_fits _ _ Hr) in Hret.
Qed.

(** C6, amended: for a [MainWindow<T>] whose [T] leaves [on_destroy] as it
    inherits it, the destroy message runs the hook of [MainWindow<T>] and
    nothing else: the pump is asked once to stop with exit code 1 and the
    window procedure returns 0.  The slot of the handle still holds the
    owner afterwards, and any message that comes for the handle later is
    dispatched to its handler as before. *)
Theorem main_window_destroy (w : World) (window wParam lParam this_ : Z) :
  wt_base T = MainWindow_base → T_on_destroy T = None →
  GetWindowLongPtr w window = this_ → this_ ≠ 0 →
  ∃ w',
    WndProc P T w window WM_DESTROY wParam lParam = Returned (w', 0)
    ∧ w_trace w' = Call_on_destroy in_MainWindow this_ window :: w_trace w
    ∧ w_quit w' = 1 :: w_quit w
    ∧ GetWindowLongPtr w' window = this_
    ∧ ∀ message wParam' lParam', message ≠ WM_NCCREATE →
        ∃ w'' result,
          WndProc P T w' window message wParam' lParam' = Returned (w'', result)
          ∧ w_trace w''
            = routed_call T this_ window message wParam' lParam' :: w_trace w'.
Proof.
  intros Hbase Hnone Hown Hnn.
  assert (WndProc P T w window WM_DESTROY wParam lParam
          = Returned (MainWindow_on_destroy this_ window w, 0)) as Hret.
  { unfold WndProc. rewrite bind_on_create_other by done.
    cbn [mbind Outcome_bind]. rewrite Hown, bool_decide_eq_true_2 by done.
    unfold switch_message. rewrite bool_decide_eq_true_2 by done.
    unfold HANDLE_WM_DESTROY, on_destroy. by rewrite Hnone, Hbase. }
  eexists. split; [exact Hret|]. split_and!; try done.
  intros message wParam' lParam' Hne.
  destruct (WndProc_owner P T (MainWindow_on_destroy this_ window w) _
              window message wParam' lParam' this_
              (bind_on_create_other _ _ _ _ Hne) Hown Hnn)
    as (w'' & result & Hret' & Htrace & _).
  by exists w'', result.
Qed.

(** C8: the slot of a handle is written by the creation message: given the
    address of a window object, the window procedure returns with that
    address stored in the slot, and whatever is delivered afterwards for
    handles that have an owner, the destroy message included, is dispatched
    and leaves the slot holding that same address.  No other message writes
    a slot: after any run of messages that are not the creation message,
    every slot reads as before. *)
Theorem binding_written_by_creation_only (w : World) :
  (∀ window wParam lParam param,
     w_createstructs w !! lParam = Some param →
     param ≠ 0 → is_Some (w_objects w !! param) →
     ∃ w' result,
       WndProc P T w window WM_NCCREATE wParam lParam = Returned (w', result)
       ∧ w_userdata w' = <[window := param]> (w_userdata w)
       ∧ GetWindowLongPtr w' window = param
       ∧ ∀ msgs,
           Forall (λ m : Z * Msg, msg_code m.2 ≠ WM_NCCREATE
                                  ∧ GetWindowLongPtr w' m.1 ≠ 0) msgs →
           ∃ w'', deliver P T w' msgs = Returned w''
                  ∧ GetWindowLongPtr w'' window = param)
  ∧ (∀ window wParam lParam w' result,
     WndProc P T w window WM_NCCREATE wParam lParam = Returned (w', result) →
     ∃ param, w_createstructs w !! lParam = Some param
       ∧ w_userdata w' = <[window := param]> (w_userdata w))
  ∧ (∀ msgs w',
       Forall (λ m : Z * Msg, msg_code m.2 ≠ WM_NCCREATE) msgs →
       deliver P T w msgs = Returned w' →
       ∀ window, GetWindowLongPtr w' window = GetWindowLongPtr w window)
  ∧ (∀ msgs,
       Forall (λ m : Z * Msg, msg_code m.2 ≠ WM_NCCREATE
                              ∧ GetWindowLongPtr w m.1 ≠ 0) msgs →
       ∃ w', deliver P T w msgs = Returned w'
             ∧ ∀ window, GetWindowLongPtr w' window = GetWindowLongPtr w window).
Proof.
  assert (∀ (w0 : World) msgs w',
       Forall (λ m : Z * Msg, msg_code m.2 ≠ WM_NCCREATE) msgs →
       deliver P T w0 msgs = Returned w' →
       ∀ window, GetWindowLongPtr w' window = GetWindowLongPtr w0 window) as Hkeep.
  { intros w0 msgs w' Hmsgs Hret window.
    destruct (deliver_other_tables P T msgs w0 w' Hmsgs Hret) as (_ & Hdata & _).
    unfold GetWindowLongPtr. by rewrite Hdata. }
  assert (∀ (w0 : World) msgs,
       Forall (λ m : Z * Msg, msg_code m.2 ≠ WM_NCCREATE
                              ∧ GetWindowLongPtr w0 m.1 ≠ 0) msgs →
       ∃ w', deliver P T w0 msgs = Returned w'
             ∧ ∀ window, GetWindowLongPtr w' window = GetWindowLongPtr w0 window)
    as Hrun.
  { intros w0 msgs Hmsgs.
    destruct (deliver_owner_returns P T msgs w0 Hmsgs) as [w' Hret].
    exists w'. split; [done|]. apply (Hkeep w0 msgs); [|done].
    eapply Forall_impl; [exact Hmsgs|]. by intros m [? _]. }
  split_and!; [| |apply Hkeep|apply Hrun].
  - intros window wParam lParam param Hcs Hparam [old Hobject].
    set (w1 := SetWindowLongPtr window param
                 (with_objects (<[param := window]> (w_objects w)) w)).
    assert (bind_on_create w window WM_NCCREATE lParam = Returned w1) as Hbind.
    { unfold bind_on_create. rewrite bool_decide_eq_true_2, Hcs by done.
      by rewrite bool_decide_eq_false_2, Hobject by done. }
    assert (GetWindowLongPtr w1 window = param) as Hown.
    { unfold GetWindowLongPtr, w1. simpl. by rewrite lookup_insert_eq. }
    destruct (WndProc_owner P T w w1 window WM_NCCREATE wParam lParam param
                Hbind Hown Hparam) as (w' & result & Hret & _ & _ & Htab & _).
    destruct Htab as (_ & Hdata & _).
    assert (GetWindowLongPtr w' window = param) as Hown'.
    { unfold GetWindowLongPtr in *. by rewrite Hdata. }
    exists w', result. split_and!; [done|by rewrite Hdata|done|].
    intros msgs Hmsgs. destruct (Hrun w' msgs Hmsgs) as (w'' & Hrest & Hsame).
    exists w''. split; [done|]. by rewrite Hsame.
  - intros window wParam lParam w' result Hret. unfold WndProc in Hret.
    destruct (bind_on_create w window WM_NCCREATE lParam) as [w1| |] eqn:Hbind;
      cbn [mbind Outcome_bind] in Hret; try done.
    destruct (bind_on_create_binds w w1 window lParam Hbind)
      as (param & Hcs & Hparam & Hdata & _).
    exists param. split; [done|]. rewrite <- Hdata.
    assert (GetWindowLongPtr w1 window = param) as Hown.
    { unfold GetWindowLongPtr. by rewrite Hdata, lookup_insert_eq. }
    destruct (WndProc_owner P T w w1 window WM_NCCREATE wParam lParam param
                Hbind Hown Hparam) as (w2 & r2 & Hret2 & _ & _ & Htab & _).
    unfold WndProc in Hret2. rewrite Hbind in Hret2.
    cbn [mbind Outcome_bind] in Hret2. rewrite Hret in Hret2.
    injection Hret2 as <- <-. apply Htab.
Qed.

End DispatchClaims.

(** ** Construction *)

Section ConstructionClaims.

Context {U : Type} (P : Platform) (T : WindowType U).

Local Abbreviation World := (World U).

Lemma str_app_empty s : s +:+ EmptyString = s.
Proof.
  induction s as [|c s IH]; [done|].
  change (String c (s +:+ EmptyString) = String c s). by f_equal.
Qed.

(** The text of a failure starts with its label and its code. *)
Lemma win32_error_text (label : string) (error_code : N) :
  ∃ rest, what (make_win32_error P label error_code)
          = (label +:+ ": error " +:+ pretty error_code) +:+ rest.
Proof.
  unfold make_win32_error, win32_error.format. simpl.
  destruct (FormatMessageA P error_code) as [stored description].
  case_bool_decide.
  - by eexists.
  - exists EmptyString. symmetry. apply str_app_empty.
Qed.

(** No message changes a [CREATESTRUCT]. *)
Lemma WndProc_createstructs (w w' : World) window message wParam lParam result :
  WndProc P T w window message wParam lParam = Returned (w', result) →
  w_createstructs w' = w_createstructs w.
Proof.
  intros Hret. destruct (decide (message = WM_NCCREATE)) as [->|Hne].
  - unfold WndProc in Hret.
    destruct (bind_on_create w window WM_NCCREATE lParam) as [w1| |] eqn:Hbind;
      cbn [mbind Outcome_bind] in Hret; try done.
    destruct (bind_on_create_binds w w1 window lParam Hbind)
      as (param & _ & Hparam & Hdata & _ & Hcs & _).
    assert (GetWindowLongPtr w1 window = param) as Hown.
    { unfold GetWindowLongPtr. by rewrite Hdata, lookup_insert_eq. }
    destruct (WndProc_owner P T w w1 window WM_NCCREATE wParam lParam param
                Hbind Hown Hparam) as (w2 & r2 & Hret2 & _ & _ & Htab & _).
    unfold WndProc in Hret2. rewrite Hbind in Hret2.
    cbn [mbind Outcome_bind] in Hret2. rewrite Hret in Hret2.
    injection Hret2 as <- <-. destruct Htab as (_&_&_&_&_& -> &_). done.
  - by destruct (WndProc_other_tables P T w w' window message wParam lParam
                   result Hne Hret) as (_&_&_&_&_& -> &_).
Qed.

Lemma send_creation_createstructs (msgs : list Msg) (w w' : World) window ok :
  send_creation P T w window msgs = Returned (w', ok) →
  w_createstructs w' = w_createstructs w.
Proof.
  revert w. induction msgs as [|m rest IH]; intros w; simpl.
  - by intros [= <- <-].
  - destruct (WndProc P T w window (msg_code m) (msg_wParam m) (msg_lParam m))
      as [[w1 r]| |] eqn:Hstep; cbn [mbind Outcome_bind]; try done.
    pose proof (WndProc_createstructs _ _ _ _ _ _ _ Hstep) as Hcs.
    destruct (vetoes (msg_code m) r).
    + intros [= <- <-]. done.
    + intros Hrest. rewrite (IH _ Hrest). done.
Qed.

Lemma send_creation_other (msgs : list Msg) (w w' : World) window ok :
  Forall (λ m, msg_code m ≠ WM_NCCREATE) msgs →
  send_creation P T w window msgs = Returned (w', ok) →
  same_tables w w'.
Proof.
  intros Hmsgs. revert w. induction Hmsgs as [|m rest Hm _ IH]; intros w; simpl.
  - intros [= <- <-]. apply same_tables_refl.
  - destruct (WndProc P T w window (msg_code m) (msg_wParam m) (msg_lParam m))
      as [[w1 r]| |] eqn:Hstep; cbn [mbind Outcome_bind]; try done.
    pose proof (WndProc_other_tables P T _ _ _ _ _ _ _ Hm Hstep) as Htab.
    destruct (vetoes (msg_code m) r).
    + by intros [= <- <-].
    + intros Hrest. eapply same_tables_trans; [done|by apply IH].
Qed.

(** A creation that was not stopped went through each of its messages. *)
Lemma send_creation_app (pre post : list Msg) (m : Msg) (w w' : World) window :
  send_creation P T w window (pre ++ m :: post) = Returned (w', true) →
  ∃ w1 w2 result,
    send_creation P T w window pre = Returned (w1, true)
    ∧ WndProc P T w1 window (msg_code m) (msg_wParam m) (msg_lParam m)
      = Returned (w2, result)
    ∧ send_creation P T w2 window post = Returned (w', true).
Proof.
  revert w. induction pre as [|m' pre IH]; intros w; simpl.
  - destruct (WndProc P T w window (msg_code m) (msg_wParam m) (msg_lParam m))
      as [[w2 r]| |] eqn:Hstep; cbn [mbind Outcome_bind]; try done.
    destruct (vetoes (msg_code m) r); [done|].
    intros Hrest. by exists w, w2, r.
  - destruct (WndProc P T w window (msg_code m') (msg_wParam m') (msg_lParam m'))
      as [[w0 r]| |] eqn:Hstep; cbn [mbind Outcome_bind]; try done.
    destruct (vetoes (msg_code m') r); [done|].
    intros Hrest. destruct (IH _ Hrest) as (w1 & w2 & result & ? & ? & ?).
    by exists w1, w2, result.
Qed.

(** The creation message of [CreateWindow] binds the new handle to the
    object given as [lpParam]. *)
Lemma CreateWindow_binds (lpClassName lpWindowName : string) (lpParam : Z)
    (w w' : World) (window : Z) :
  Forall (λ m, msg_code m ≠ WM_NCCREATE) (creation_epilogue P) →
  CreateWindow P T lpClassName lpWindowName lpParam w = Returned (w', window) →
  window ≠ 0 →
  GetWindowLongPtr w' window = lpParam ∧ w_objects w' !! lpParam = Some window.
Proof.
  intros Hepilogue. unfold CreateWindow.
  destruct (w_classes w !! lpClassName); [|by intros [= <- <-]].
  destruct (next_fault w) as [[e|] wf]; [by intros [= <- <-]|].
  set (h := Z.pos (w_next_hwnd wf)).
  set (ws := with_createstructs _ _).
  destruct (send_creation P T ws h (creation_messages P)) as [[w3 ok]| |] eqn:Hsend;
    cbn [mbind Outcome_bind]; try done.
  intros [= <- <-] Hwindow. destruct ok; [|done].
  destruct (send_creation_app _ _ _ _ _ _ Hsend)
    as (w1 & w2 & result & Hpre & Hcreate & Hpost). simpl in Hcreate.
  pose proof (send_creation_createstructs _ _ _ _ _ Hpre) as Hcs.
  pose proof (send_creation_other _ _ _ _ _ Hepilogue Hpost)
    as (_ & Hdata & _ & _ & _ & _ & Hobjects).
  unfold WndProc in Hcreate.
  destruct (bind_on_create w1 h WM_NCCREATE (createstruct_addr P))
    as [wb| |] eqn:Hbind; cbn [mbind Outcome_bind] in Hcreate; try done.
  destruct (bind_on_create_binds w1 wb h _ Hbind)
    as (param & Hparam & Hnn & Hbdata & Hbobjects & _).
  assert (param = lpParam) as ->.
  { rewrite Hcs in Hparam. unfold ws in Hparam. simpl in Hparam.
    rewrite lookup_insert_eq in Hparam. by injection Hparam. }
  assert (GetWindowLongPtr wb h = lpParam) as Hown.
  { unfold GetWindowLongPtr. by rewrite Hbdata, lookup_insert_eq. }
  destruct (WndProc_owner P T w1 wb h WM_NCCREATE 0 (createstruct_addr P) lpParam
              Hbind Hown Hnn) as (w2' & r2 & Hret2 & _ & _ & Htab & _).
  unfold WndProc in Hret2. rewrite Hbind in Hret2.
  cbn [mbind Outcome_bind] in Hret2. rewrite Hcreate in Hret2.
  injection Hret2 as <- <-.
  destruct Htab as (_ & Hdata2 & _ & _ & _ & _ & Hobjects2).
  split.
  - unfold GetWindowLongPtr. by rewrite Hdata, Hdata2, Hbdata, lookup_insert_eq.
  - by rewrite Hobjects, Hobjects2, Hbobjects, lookup_insert_eq.
Qed.

(** C1: when the constructor returns, the object holds a handle that is not
    null, and the slot of that handle holds the address of the object; it was
    stored there by the creation message, inside [CreateWindow]. *)
Theorem constructed_window_is_bound
    (this : Z) (creation_params : WindowCreationParams) (w w' : World) :
  Forall (λ m, msg_code m ≠ WM_NCCREATE) (creation_epilogue P) →
  AppWindow_ctor P T this creation_params w = Returned w' →
  m_window w' this ≠ 0 ∧ GetWindowLongPtr w' (m_window w' this) = this.
Proof.
  intros Hepilogue. unfold AppWindow_ctor.
  destruct (register_class P T this creation_params (Window_ctor this w))
    as [w1| |]; cbn [mbind Outcome_bind]; try done.
  unfold create.
  destruct (CreateWindow P T (get_class_name T) (caption creation_params) this w1)
    as [[w2 window]| |] eqn:Hcreate; cbn [mbind Outcome_bind]; try done.
  case_bool_decide as Hwindow; [done|]. intros [= <-].
  destruct (CreateWindow_binds _ _ _ _ _ _ Hepilogue Hcreate Hwindow)
    as [Hown _].
  unfold m_window. simpl. rewrite lookup_insert_eq. simpl. done.
Qed.

(** The window procedure and the platform's creation never leave by a
    [win32_error]: the two [throw] of the header are the only ones. *)
Lemma WndProc_never_raises (w : World) window message wParam lParam e :
  WndProc P T w window message wParam lParam ≠ Raised e.
Proof.
  unfold WndProc.
  destruct (bind_on_create w window message lParam) as [w1|e1|f] eqn:Hbind;
    cbn [mbind Outcome_bind]; [| |done].
  - destruct (if bool_decide (GetWindowLongPtr w1 window ≠ 0)
              then switch_message P T w1 (GetWindowLongPtr w1 window) window
                     message wParam lParam
              else None); [done|].
    unfold call_on_message. by case_bool_decide.
  - unfold bind_on_create in Hbind.
    repeat (case_bool_decide || case_match); done.
Qed.

Lemma send_creation_never_raises (msgs : list Msg) (w : World) window e :
  send_creation P T w window msgs ≠ Raised e.
Proof.
  revert w. induction msgs as [|m rest IH]; intros w; simpl; [done|].
  pose proof (WndProc_never_raises w window (msg_code m) (msg_wParam m)
                (msg_lParam m) e) as Hstep.
  destruct (WndProc P T w window (msg_code m) (msg_wParam m) (msg_lParam m))
    as [[w1 r]| |]; cbn [mbind Outcome_bind]; try done.
  - destruct (vetoes (msg_code m) r); [done|apply IH].
  - congruence.
Qed.

Lemma CreateWindow_never_raises lpClassName lpWindowName lpParam (w : World) e :
  CreateWindow P T lpClassName lpWindowName lpParam w ≠ Raised e.
Proof.
  unfold CreateWindow.
  destruct (w_classes w !! lpClassName); [|done].
  destruct (next_fault w) as [[e'|] wf]; [done|].
  set (ws := with_createstructs _ _).
  pose proof (send_creation_never_raises (creation_messages P) ws
                (Z.pos (w_next_hwnd wf)) e) as Hsend.
  destruct (send_creation P T ws (Z.pos (w_next_hwnd wf)) (creation_messages P))
    as [[w3 ok]| |]; cbn [mbind Outcome_bind]; congruence.
Qed.

(** C5: the constructor leaves by a [win32_error] in two cases and no other.
    Either [RegisterClassEx] fails and the last error is not "class already
    exists": the failure is the one made from ["RegisterClassEx"] and that
    last error.  Or the class is there, new or already existing, and
    [CreateWindow] returns no handle: the failure is the one made from
    ["CreateWindow"] and the last error.  The text of a failure starts with
    its label and its code.  Registering the class of a type a second time
    is refused by the platform as "class already exists", and
    [register_class] returns as it did the first time. *)
Theorem platform_failure_raised
    (this : Z) (creation_params : WindowCreationParams) (w : World) :
  let registration := RegisterClassEx (window_class T) (Window_ctor this w) in
  (∀ e, AppWindow_ctor P T this creation_params w = Raised e ↔
     (registration.2 = 0
      ∧ GetLastError registration.1 ≠ ERROR_CLASS_ALREADY_EXISTS
      ∧ e = make_win32_error P "RegisterClassEx" (GetLastError registration.1))
     ∨ ((registration.2 ≠ 0
         ∨ GetLastError registration.1 = ERROR_CLASS_ALREADY_EXISTS)
        ∧ ∃ w2, CreateWindow P T (get_class_name T) (caption creation_params)
                  this registration.1 = Returned (w2, 0)
                ∧ e = make_win32_error P "CreateWindow" (GetLastError w2)))
  ∧ (∀ label error_code, ∃ rest,
       what (make_win32_error P label error_code)
       = (label +:+ ": error " +:+ pretty error_code) +:+ rest)
  ∧ (w_faults w = [] →
     ∃ w1 w2,
       register_class P T this creation_params w = Returned w1
       ∧ RegisterClassEx (window_class T) w1 = (w2, 0)
       ∧ GetLastError w2 = ERROR_CLASS_ALREADY_EXISTS
       ∧ register_class P T this creation_params w1 = Returned w2).
Proof.
  intros registration. split_and!.
  - intros e. unfold AppWindow_ctor, register_class. fold registration.
    destruct registration as [w1 registered]. cbn [fst snd].
    destruct (decide (registered = 0
                      ∧ GetLastError w1 ≠ ERROR_CLASS_ALREADY_EXISTS))
      as [[Hzero Herror]|Hregistered].
    + rewrite !bool_decide_eq_true_2 by done. cbn [andb mbind Outcome_bind].
      split.
      * intros [= <-]. by left.
      * intros [(_ & _ & ->)|([?|?] & _)]; done.
    + assert (registered ≠ 0 ∨ GetLastError w1 = ERROR_CLASS_ALREADY_EXISTS)
        as Hclass.
      { destruct (decide (registered = 0)); [|by left].
        destruct (decide (GetLastError w1 = ERROR_CLASS_ALREADY_EXISTS));
          [by right|tauto]. }
      assert (bool_decide (registered = 0)
              && bool_decide (GetLastError w1 ≠ ERROR_CLASS_ALREADY_EXISTS)
              = false) as ->.
      { apply andb_false_iff. rewrite !bool_decide_eq_false. tauto. }
      cbn [mbind Outcome_bind]. unfold create.
      pose proof (CreateWindow_never_raises (get_class_name T)
                    (caption creation_params) this w1) as Hnever.
      destruct (CreateWindow P T (get_class_name T) (caption creation_params)
                  this w1) as [[w2 window]|e'|]; cbn [mbind Outcome_bind].
      * case_bool_decide as Hwindow; simpl.
        -- subst window. split.
           ++ intros [= <-]. right. split; [done|]. by exists w2.
           ++ intros [(? & ? & _)|(_ & w2' & [= <-] & ->)]; [tauto|done].
        -- split; [done|].
           intros [(? & ? & _)|(_ & w2' & [= <- ?] & _)]; [tauto|done].
      * by destruct (Hnever e').
      * split; [done|]. intros [(? & ? & _)|(_ & w2' & ? & _)]; [tauto|done].
  - apply win32_error_text.
  - intros Hfaults.
    assert (∀ w0 : World, w_faults w0 = [] →
              is_Some (w_classes w0 !! lpszClassName (window_class T)) →
              let w2 := with_last_error ERROR_CLASS_ALREADY_EXISTS w0 in
              RegisterClassEx (window_class T) w0 = (w2, 0)
              ∧ register_class P T this creation_params w0 = Returned w2)
      as Hexisting.
    { intros w0 Hf [c Hc]. unfold register_class, RegisterClassEx, next_fault.
      rewrite Hf, Hc. split; [done|].
      cbn [GetLastError with_last_error w_last_error].
      rewrite bool_decide_eq_true_2 by done.
      by rewrite (bool_decide_eq_false_2 (_ ≠ _)) by naive_solver. }
    destruct (w_classes w !! lpszClassName (window_class T)) as [c|] eqn:Hclass.
    + destruct (Hexisting w Hfaults) as [_ Hfirst]; [by eexists|].
      destruct (Hexisting (with_last_error ERROR_CLASS_ALREADY_EXISTS w))
        as [Hagain Hsecond]; [done|by eexists|].
      eexists _, _. split_and!; [exact Hfirst|exact Hagain|done|exact Hsecond].
    + set (w1 := with_classes
                   (<[lpszClassName (window_class T) := window_class T]>
                      (w_classes w)) w).
      assert (register_class P T this creation_params w = Returned w1) as Hfirst.
      { unfold register_class, RegisterClassEx, next_fault.
        rewrite Hfaults, Hclass.
        by rewrite (bool_decide_eq_false_2 (class_atom = 0)) by done. }
      destruct (Hexisting w1) as [Hagain Hsecond]; [done| |].
      { unfold w1. cbn [with_classes w_classes]. rewrite lookup_insert_eq.
        by eexists. }
      eexists _, _. split_and!; [exact Hfirst|exact Hagain|done|exact Hsecond].
Qed.

End ConstructionClaims.

(** * Examples

    Three window types over an application that keeps the list of the
    points it was clicked at: one that declares nothing, one that derives
    from [MainWindow<T>] and declares nothing, one that declares
    [on_left_button_up]. *)

Definition clicks : Type := list (Z * Z).

Definition plain_window : WindowType clicks :=
  {| wt_base := AppWindow_base; wt_WndProc := 4198400;
     T_on_destroy := None; T_on_left_button_up := None; T_on_mouse_move := None;
     T_on_hittest := None; T_on_paint := None; T_on_set_cursor := None;
     T_on_message := None |}.

Definition main_window : WindowType clicks :=
  {| wt_base := MainWindow_base; wt_WndProc := 4202496;
     T_on_destroy := None; T_on_left_button_up := None; T_on_mouse_move := None;
     T_on_hittest := None; T_on_paint := None; T_on_set_cursor := None;
     T_on_message := None |}.

Definition click_window : WindowType clicks :=
  {| wt_base := AppWindow_base; wt_WndProc := 4206592;
     T_on_destroy := None;
     T_on_left_button_up := Some (λ this hwnd x y flags seen, (x, y) :: seen);
     T_on_mouse_move := None;
     T_on_hittest := None; T_on_paint := None; T_on_set_cursor := None;
     T_on_message := None |}.

(** Nothing registered, no window, no failure to come. *)
Definition fresh_world : World clicks :=
  {| w_classes := ∅; w_userdata := ∅; w_last_error := 0; w_faults := [];
     w_next_hwnd := 1; w_createstructs := ∅; w_objects := ∅; w_quit := [];
     w_trace := []; w_user := [] |}.

(** The window 1, owned by the object at address 500. *)
Definition bound_world : World clicks :=
  {| w_classes := ∅; w_userdata := {[ 1 := 500 ]}; w_last_error := 0;
     w_faults := []; w_next_hwnd := 2; w_createstructs := ∅;
     w_objects := {[ 500 := 1 ]}; w_quit := []; w_trace := []; w_user := [] |}.

(** A world in which the platform is about to create window 1 for the
    object at address 500: the object exists, its handle is still null, and
    the [CREATESTRUCT] at 4096 points at it. *)
Definition creating_world : World clicks :=
  {| w_classes := ∅; w_userdata := ∅; w_last_error := 0; w_faults := [];
     w_next_hwnd := 2; w_createstructs := {[ 4096 := 500 ]};
     w_objects := {[ 500 := 0 ]}; w_quit := []; w_trace := []; w_user := [] |}.

Definition WM_NCDESTROY : Z := 0x0082.

(** A release of the button at (-3, 7) with the shift key down reaches the
    handler that [click_window] declares. *)
Lemma dispatch_routes_witness :
  bind_on_create bound_world 1 WM_LBUTTONUP 0x0007FFFD = Returned bound_world
  ∧ GetWindowLongPtr bound_world 1 = 500
  ∧ ∃ w' result,
      WndProc sample_platform click_window bound_world 1 WM_LBUTTONUP 4 0x0007FFFD
        = Returned (w', result)
      ∧ w_trace w' = [Call_on_left_button_up in_T 500 1 (-3) 7 4]
      ∧ w_user w' = [(-3, 7)].
Proof.
  split; [reflexivity|]. split; [reflexivity|].
  destruct (dispatch_routes sample_platform click_window bound_world bound_world
              1 WM_LBUTTONUP 4 0x0007FFFD 500)
    as (w' & result & Hret & Htrace & Huser & _);
    [reflexivity|reflexivity|done|].
  exists w', result. split; [exact Hret|].
  split; [rewrite Htrace|rewrite Huser]; reflexivity.
Defined.

(** A paint request for a handle that no creation message bound. *)
Lemma unbound_dispatch_calls_through_null_witness :
  GetWindowLongPtr fresh_world 1 = 0
  ∧ WndProc sample_platform plain_window fresh_world 1 WM_PAINT 0 0
    = Faulted null_this_call.
Proof.
  split; [reflexivity|].
  destruct (unbound_dispatch_calls_through_null sample_platform plain_window
              fresh_world fresh_world 1 WM_PAINT 0 0) as [Hcall Hfault];
    [reflexivity|reflexivity|].
  rewrite Hcall. exact Hfault.
Defined.

(** C4 as stated fails: the default processing of the sample platform
    answers 7 to a paint request, which is what [on_message] would return,
    and the window procedure returns 0. *)
Lemma fallback_result_counterexample :
  (on_message sample_platform plain_window 500 1 (to_int WM_PAINT) 0 0
     bound_world).2 = 7
  ∧ (∃ w', WndProc sample_platform plain_window bound_world 1 WM_PAINT 0 0
           = Returned (w', 0))
  ∧ ¬ (∃ w', WndProc sample_platform plain_window bound_world 1 WM_PAINT 0 0
             = Returned (w', (on_message sample_platform plain_window 500 1
                                (to_int WM_PAINT) 0 0 bound_world).2)).
Proof.
  split; [reflexivity|]. split.
  - eexists. vm_compute. reflexivity.
  - intros [w' Hret]. vm_compute in Hret. discriminate Hret.
Qed.

Lemma answerless_messages_return_zero_witness :
  ∃ w' call,
    WndProc sample_platform plain_window bound_world 1 WM_PAINT 0 0
      = Returned (w', 0)
    ∧ w_trace w' = call :: w_trace bound_world ∧ is_on_message call = false.
Proof.
  destruct (answerless_messages_return_zero sample_platform plain_window
              bound_world 1 WM_PAINT 0 0 500) as [Hzero _];
    [done|reflexivity|done|].
  apply Hzero. unfold answerless. rewrite !elem_of_cons. tauto.
Defined.

(** C10 as stated fails: to a hit-test the default processing of the sample
    platform answers [HTERROR], -2, and the window procedure of an x64 build
    returns 4294967294. *)
Lemma default_answers_counterexample :
  arch sample_platform = x64
  ∧ T_on_hittest plain_window = None
  ∧ DefWindowProc sample_platform 1 WM_NCHITTEST 0 0 = -2
  ∧ (∃ w', WndProc sample_platform plain_window bound_world 1 WM_NCHITTEST 0 0
           = Returned (w', 4294967294))
  ∧ ¬ (∃ w', WndProc sample_platform plain_window bound_world 1 WM_NCHITTEST 0 0
             = Returned (w', DefWindowProc sample_platform 1 WM_NCHITTEST 0 0)).
Proof.
  split; [reflexivity|]. split; [reflexivity|]. split; [reflexivity|]. split.
  - eexists. vm_compute. reflexivity.
  - intros [w' Hret]. vm_compute in Hret. discriminate Hret.
Qed.

Lemma default_answers_forwarded_witness :
  (∃ w', WndProc sample_platform plain_window bound_world 1 WM_NCHITTEST 0 0
         = Returned (w', 4294967294))
  ∧ (∃ w', WndProc sample_platform plain_window bound_world 1 WM_SETCURSOR 1 0x02000001
           = Returned (w', DefWindowProc sample_platform 1 WM_SETCURSOR 1 0x02000001)).
Proof.
  destruct (default_answers_forwarded sample_platform plain_window
              bound_world 1 0 0 500) as (Hhit & _ & _); [reflexivity|done|].
  destruct (default_answers_forwarded sample_platform plain_window
              bound_world 1 1 0x02000001 500) as (_ & _ & Hexact);
    [reflexivity|done|].
  split.
  - exact (Hhit eq_refl).
  - apply Hexact.
    + right. by split.
    + simpl. lia.
    + simpl. lia.
Defined.

(** C6 as stated fails: after the destroy message, the message that the
    platform sends next for the same handle runs a handler again. *)
Lemma main_window_destroy_counterexample :
  ∃ w' w'',
    WndProc sample_platform main_window bound_world 1 WM_DESTROY 0 0
      = Returned (w', 0)
    ∧ w_quit w' = [1]
    ∧ WndProc sample_platform main_window w' 1 WM_NCDESTROY 0 0
      = Returned (w'', 7)
    ∧ w_trace w''
      = [Call_on_message in_AppWindow 500 1 WM_NCDESTROY 0 0;
         Call_on_destroy in_MainWindow 500 1].
Proof.
  eexists _, _. split; [vm_compute; reflexivity|].
  split; [reflexivity|]. split; [vm_compute; reflexivity|]. reflexivity.
Qed.

Lemma main_window_destroy_witness :
  ∃ w',
    WndProc sample_platform main_window bound_world 1 WM_DESTROY 0 0
      = Returned (w', 0)
    ∧ w_quit w' = [1]
    ∧ GetWindowLongPtr w' 1 = 500.
Proof.
  destruct (main_window_destroy sample_platform main_window bound_world
              1 0 0 500) as (w' & Hret & _ & Hquit & Hown & _);
    [reflexivity|reflexivity|reflexivity|done|].
  by exists w'.
Defined.

(** The creation message for window 1 carries the object at 500: the slot
    of window 1 reads 500 after it, and still does after a destroy message
    and a paint request. *)
Lemma binding_written_by_creation_only_witness :
  ∃ w' result w'',
    WndProc sample_platform main_window creating_world 1 WM_NCCREATE 0 4096
      = Returned (w', result)
    ∧ GetWindowLongPtr w' 1 = 500
    ∧ deliver sample_platform main_window w'
        [(1, {| msg_code := WM_DESTROY; msg_wParam := 0; msg_lParam := 0 |});
         (1, {| msg_code := WM_PAINT; msg_wParam := 0; msg_lParam := 0 |})]
      = Returned w''
    ∧ GetWindowLongPtr w'' 1 = 500.
Proof.
  destruct (binding_written_by_creation_only sample_platform main_window
              creating_world) as (Hcreation & _).
  destruct (Hcreation 1 0 4096 500) as (w' & result & Hret & _ & Hown & Hlater);
    [reflexivity|done|by eexists|].
  destruct (Hlater
      [(1, {| msg_code := WM_DESTROY; msg_wParam := 0; msg_lParam := 0 |});
       (1, {| msg_code := WM_PAINT; msg_wParam := 0; msg_lParam := 0 |})])
    as (w'' & Hrest & Hkept).
  { repeat constructor; simpl; try done; by rewrite Hown. }
  by exists w', result, w''.
Defined.

(** Scenario A of the specification up to the handle: a [main_window] is
    constructed with caption "Hello" in a fresh world. *)
Lemma constructed_window_is_bound_witness :
  ∃ w',
    AppWindow_ctor sample_platform main_window 500 {| caption := "Hello" |}
      fresh_world = Returned w'
    ∧ m_window w' 500 ≠ 0
    ∧ GetWindowLongPtr w' (m_window w' 500) = 500.
Proof.
  assert (∃ w', AppWindow_ctor sample_platform main_window 500
                  {| caption := "Hello" |} fresh_world = Returned w')
    as [w' Hret] by (eexists; vm_compute; reflexivity).
  exists w'. split; [exact Hret|].
  apply (constructed_window_is_bound sample_platform main_window 500
           {| caption := "Hello" |} fresh_world w'); [|exact Hret].
  repeat constructor; done.
Defined.

(** Scenario C of the specification: the platform refuses the registration
    with error 8.  And in a world where nothing fails, the class of
    [main_window] is registered twice. *)
Lemma platform_failure_raised_witness :
  AppWindow_ctor sample_platform main_window 500 {| caption := "Hello" |}
    (with_faults [Some 8%N] fresh_world)
  = Raised {| what := "RegisterClassEx: error 8" |}
  ∧ ∃ w1 w2,
      register_class sample_platform main_window 500 {| caption := "Hello" |}
        fresh_world = Returned w1
      ∧ register_class sample_platform main_window 500 {| caption := "Hello" |}
          w1 = Returned w2
      ∧ GetLastError w2 = ERROR_CLASS_ALREADY_EXISTS.
Proof.
  split.
  - destruct (platform_failure_raised sample_platform main_window 500
                {| caption := "Hello" |} (with_faults [Some 8%N] fresh_world))
      as (Hiff & _ & _).
    apply Hiff. left. split; [reflexivity|]. split; [done|reflexivity].
  - destruct (platform_failure_raised sample_platform main_window 500
                {| caption := "Hello" |} fresh_world) as (_ & _ & Htwice).
    destruct (Htwice eq_refl) as (w1 & w2 & Hfirst & _ & Herror & Hsecond).
    by exists w1, w2.
Defined.

(** The platform sends [WM_GETMINMAXINFO] to a window with a frame before
    it sends [WM_NCCREATE]: no owner is bound yet, and the construction ends
    in the call through a null pointer. *)
Definition WM_GETMINMAXINFO : Z := 0x0024.

Definition early_platform : Platform :=
  {| arch := x64;
     DefWindowProc := DefWindowProc sample_platform;
     system_message := sample_messages;
     creation_prologue :=
       [ {| msg_code := WM_GETMINMAXINFO; msg_wParam := 0; msg_lParam := 8192 |} ];
     creation_epilogue := creation_epilogue sample_platform;
     createstruct_addr := 4096 |}.

Example early_message_ends_construction :
  AppWindow_ctor early_platform main_window 500 {| caption := "Hello" |}
    fresh_world = Faulted null_this_call.
Proof. vm_compute. reflexivity. Qed.

(** * Further properties of the header *)

(** ** What a call of the window procedure changes *)

Section Frame.

Context {U : Type} (P : Platform) (T : WindowType U).

Local Abbreviation World := (World U).

(** A call that returns went through the binding step, found an owner and
    ran the routed handler, which left the tables alone. *)
Lemma WndProc_returned (w w' : World) window message wParam lParam result :
  WndProc P T w window message wParam lParam = Returned (w', result) →
  ∃ w1 this_,
    bind_on_create w window message lParam = Returned w1
    ∧ GetWindowLongPtr w1 window = this_ ∧ this_ ≠ 0
    ∧ same_tables w1 w'
    ∧ w_trace w' = routed_call T this_ window message wParam lParam :: w_trace w1
    ∧ w_quit w' =
        (if bool_decide (message = WM_DESTROY) && destroy_hook_inherited T
         then 1 :: w_quit w1 else w_quit w1).
Proof.
  intros Hret. unfold WndProc in Hret.
  destruct (bind_on_create w window message lParam) as [w1| |] eqn:Hbind;
    cbn [mbind Outcome_bind] in Hret; try done.
  exists w1, (GetWindowLongPtr w1 window). split; [done|]. split; [done|].
  destruct (decide (GetWindowLongPtr w1 window = 0)) as [Hnull|Hown].
  { rewrite Hnull in Hret. rewrite bool_decide_eq_false_2 in Hret by naive_solver.
    unfold call_on_message in Hret. by rewrite bool_decide_eq_true_2 in Hret. }
  split; [done|]. rewrite bool_decide_eq_true_2 in Hret by done.
  pose proof (switch_message_routed P T w1 (GetWindowLongPtr w1 window) window
                message wParam lParam) as Hsw.
  destruct (switch_message P T w1 (GetWindowLongPtr w1 window) window message
              wParam lParam) as [[w2 r2]|] eqn:Hswitch.
  - injection Hret as <- <-. destruct Hsw as (_ & Htrace & _).
    split_and!; [by eapply switch_message_tables|done|].
    by eapply switch_message_quit.
  - unfold call_on_message in Hret. rewrite bool_decide_eq_false_2 in Hret by done.
    injection Hret as Hret.
    pose proof (on_message_spec P T (GetWindowLongPtr w1 window) window
                  (to_int message) wParam lParam w1)
      as (Htab & Hquit & Htrace & _).
    rewrite Hret in Htab, Hquit, Htrace. simpl in Htab, Hquit, Htrace.
    assert (message ≠ WM_DESTROY) as Hne.
    { intros ->. apply Hsw. apply supported_cases. tauto. }
    rewrite (bool_decide_eq_false_2 (message = WM_DESTROY)) by done.
    split_and!; [done| |done].
    rewrite Htrace. unfold routed_call. rewrite supported_cases in Hsw.
    repeat case_bool_decide; tauto.
Qed.

(** The binding step changes the slot of its window and the handle of the
    object it binds, and nothing else. *)
Lemma bind_on_create_frame (w w1 : World) window message lParam :
  bind_on_create w window message lParam = Returned w1 →
  w_classes w1 = w_classes w ∧ w_last_error w1 = w_last_error w
  ∧ w_faults w1 = w_faults w ∧ w_next_hwnd w1 = w_next_hwnd w
  ∧ w_createstructs w1 = w_createstructs w
  ∧ w_quit w1 = w_quit w ∧ w_trace w1 = w_trace w ∧ w_user w1 = w_user w
  ∧ (∀ other, other ≠ window → w_userdata w1 !! other = w_userdata w !! other)
  ∧ (message ≠ WM_NCCREATE → w1 = w).
Proof.
  intros Hbind. destruct (decide (message = WM_NCCREATE)) as [->|Hne].
  - destruct (bind_on_create_binds w w1 window lParam Hbind)
      as (param & _ & _ & Hdata & _ & ? & ? & ? & ? & ? & ? & ? & ?).
    split_and!; try done.
    intros other Hother. by rewrite Hdata, lookup_insert_ne.
  - rewrite bind_on_create_other in Hbind by done. injection Hbind as <-.
    by split_and!.
Qed.

(** X1: the creation message, when it carries the address of a window
    object, stores the handle in that object and the object in the slot of
    the handle, and is then itself dispatched to [on_message] on the object
    it has just bound; with the default [on_message] the platform gets the
    answer of its default processing. *)
Theorem creation_message_binds_then_dispatches
    (w : World) (window wParam lParam param : Z) :
  w_createstructs w !! lParam = Some param →
  param ≠ 0 → is_Some (w_objects w !! param) →
  ∃ w' result,
    WndProc P T w window WM_NCCREATE wParam lParam = Returned (w', result)
    ∧ m_window w' param = window
    ∧ GetWindowLongPtr w' window = param
    ∧ w_trace w'
      = Call_on_message (declared_by (T_on_message T) in_AppWindow)
          param window WM_NCCREATE wParam lParam :: w_trace w
    ∧ (T_on_message T = None →
       result = DefWindowProc P window WM_NCCREATE wParam lParam).
Proof.
  intros Hcs Hnn [old Hobject].
  set (w1 := SetWindowLongPtr window param
               (with_objects (<[param := window]> (w_objects w)) w)).
  assert (bind_on_create w window WM_NCCREATE lParam = Returned w1) as Hbind.
  { unfold bind_on_create. rewrite bool_decide_eq_true_2, Hcs by done.
    by rewrite bool_decide_eq_false_2, Hobject by done. }
  assert (GetWindowLongPtr w1 window = param) as Hown.
  { unfold GetWindowLongPtr, w1. simpl. by rewrite lookup_insert_eq. }
  destruct (WndProc_owner P T w w1 window WM_NCCREATE wParam lParam param
              Hbind Hown Hnn)
    as (w' & result & Hret & Htrace & _ & Htab & _ & Hfallback).
  destruct Hfallback as [_ Hresult].
  { rewrite supported_cases. intros [?|[?|[?|[?|[?|?]]]]]; done. }
  destruct Htab as (_ & Hdata & _ & _ & _ & _ & Hobjects).
  exists w', result. split_and!; [done| | |done|].
  - unfold m_window. rewrite Hobjects. unfold w1. simpl.
    by rewrite lookup_insert_eq.
  - unfold GetWindowLongPtr in *. by rewrite Hdata.
  - intros Hnone. rewrite Hresult.
    by destruct (on_message_spec P T param window (to_int WM_NCCREATE)
                   wParam lParam w1) as (_ & _ & _ & _ & ->).
Qed.

(** X2: a call of the window procedure for one handle reads and writes the
    slot of that handle only: the slot of every other handle, the registered
    classes and the last error are as before, whatever the message; and no
    message but the creation message changes the handle a window object
    holds. *)
Theorem dispatch_leaves_other_windows_alone
    (w w' : World) (window message wParam lParam result : Z) :
  WndProc P T w window message wParam lParam = Returned (w', result) →
  (∀ other, other ≠ window →
     GetWindowLongPtr w' other = GetWindowLongPtr w other)
  ∧ w_classes w' = w_classes w
  ∧ GetLastError w' = GetLastError w
  ∧ (message ≠ WM_NCCREATE → ∀ this, m_window w' this = m_window w this).
Proof.
  intros Hret.
  destruct (WndProc_returned w w' window message wParam lParam result Hret)
    as (w1 & this_ & Hbind & _ & _ & Htab & _).
  destruct (bind_on_create_frame w w1 window message lParam Hbind)
    as (Hc & He & _ & _ & _ & _ & _ & _ & Hother & Hsame).
  destruct Htab as (Hc' & Hd' & He' & _ & _ & _ & Ho').
  split_and!.
  - intros other Hne. unfold GetWindowLongPtr. by rewrite Hd', Hother.
  - congruence.
  - unfold GetLastError. congruence.
  - intros Hne this. unfold m_window. rewrite Ho'. by rewrite (Hsame Hne).
Qed.

(** X3: the message pump is asked to stop by one message only, the destroy
    message of a window whose type inherits [on_destroy] from
    [MainWindow<T>], and then once, with exit code 1.  A type that derives
    from [AppWindow<T>] directly, or that declares [on_destroy] itself, never
    has the header ask for it. *)
Theorem quit_posted_by_inherited_destroy_hook_only
    (w w' : World) (window message wParam lParam result : Z) :
  WndProc P T w window message wParam lParam = Returned (w', result) →
  w_quit w' =
    if bool_decide (message = WM_DESTROY) && destroy_hook_inherited T
    then 1 :: w_quit w else w_quit w.
Proof.
  intros Hret.
  destruct (WndProc_returned w w' window message wParam lParam result Hret)
    as (w1 & this_ & Hbind & _ & _ & _ & _ & Hquit).
  destruct (bind_on_create_frame w w1 window message lParam Hbind)
    as (_ & _ & _ & _ & _ & Hq & _).
  by rewrite Hquit, Hq.
Qed.

(** X4: a message that has no handler of its own, sent to a window whose
    type leaves [on_message] as it is, gets exactly the answer of the
    platform's default processing to that very message, and the application
    is not touched: the passage of the code through an [int] loses
    nothing. *)
Theorem unhandled_message_gets_default_answer
    (w : World) (window message wParam lParam this_ : Z) :
  0 ≤ message < 2 ^ 32 → message ≠ WM_NCCREATE → ¬ supported message →
  T_on_message T = None →
  GetWindowLongPtr w window = this_ → this_ ≠ 0 →
  ∃ w',
    WndProc P T w window message wParam lParam
      = Returned (w', DefWindowProc P window message wParam lParam)
    ∧ w_user w' = w_user w ∧ w_quit w' = w_quit w.
Proof.
  intros Hrange Hne Hunsupported Hnone Hown Hnn.
  destruct (WndProc_owner P T w w window message wParam lParam this_
              (bind_on_create_other w _ _ _ Hne) Hown Hnn)
    as (w' & result & Hret & _ & Huser & _ & _ & Hfallback).
  destruct (Hfallback Hunsupported) as [Hquit Hresult].
  destruct (on_message_spec P T this_ window (to_int message) wParam lParam w)
    as (_ & _ & _ & _ & Hdefault).
  rewrite (Hdefault Hnone) in Hresult.
  assert (to_UINT (to_int message) = message) as Hcode.
  { unfold to_UINT, to_int, wrap_unsigned. rewrite wrap_signed_mod by lia.
    by apply Z.mod_small. }
  rewrite Hcode in Hresult. subst result.
  exists w'. split_and!; [done| |done].
  rewrite Huser. unfold routed_effect. rewrite supported_cases in Hunsupported.
  rewrite Hnone. repeat case_bool_decide; tauto.
Qed.

End Frame.

(** ** Payloads through the window procedure *)

Lemma fields_of_MAKELPARAM a lo hi :
  0 ≤ lo < 2 ^ 16 → 0 ≤ hi < 2 ^ 16 →
  low_field (MAKELPARAM a lo hi) = lo ∧ high_field (MAKELPARAM a lo hi) = hi.
Proof.
  intros Hlo Hhi. set (l := lo + 2 ^ 16 * hi).
  destruct (halves_split lo hi Hlo) as [Hl1 Hl2]. fold l in Hl1, Hl2.
  assert (0 ≤ l < 2 ^ 32) as Hl by (unfold l; lia).
  rewrite (MAKELPARAM_halves a lo hi l);
    [|by rewrite Hl1, Z.mod_small|by rewrite Hl2, Z.mod_small].
  rewrite (Z.mod_small l) by done.
  assert (to_LPARAM a l mod 2 ^ 32 = l) as Hmod.
  { unfold to_LPARAM. destruct a; simpl.
    - rewrite wrap_signed_mod by lia. by apply Z.mod_small.
    - rewrite wrap_signed_small by lia. by apply Z.mod_small. }
  destruct (halves_of_low_dword (to_LPARAM a l)) as [Hlow Hhigh].
  unfold low_field, high_field.
  rewrite <- Hlow, <- Hhigh, Hmod, Hl1, Hl2. split; [done|].
  by apply Z.mod_small.
Qed.

(** The point a handler call was given, for the handlers that take one. *)
Definition call_point (c : Call) : option (Z * Z) :=
  match c with
  | Call_on_left_button_up _ _ _ x y _ => Some (x, y)
  | Call_on_mouse_move _ _ _ x y _ => Some (x, y)
  | Call_on_hittest _ _ _ x y => Some (x, y)
  | _ => None
  end.

Section Payloads.

Context {U : Type} (P : Platform) (T : WindowType U).

Local Abbreviation World := (World U).

(** X5: a point and the key flags packed by the platform as it packs them
    ([MAKELPARAM] of two 16-bit coordinates, negative ones included, and the
    flags in [wParam]) reach [on_left_button_up] and [on_mouse_move]
    unchanged. *)
Theorem mouse_point_round_trip (w : World) (window x y flags this_ : Z) :
  - 2 ^ 15 ≤ x < 2 ^ 15 → - 2 ^ 15 ≤ y < 2 ^ 15 → 0 ≤ flags < 2 ^ 32 →
  GetWindowLongPtr w window = this_ → this_ ≠ 0 →
  (∃ w', WndProc P T w window WM_LBUTTONUP flags (MAKELPARAM (arch P) x y)
         = Returned (w', 0)
         ∧ w_trace w'
           = Call_on_left_button_up (declared_by (T_on_left_button_up T) in_AppWindow)
               this_ window x y flags :: w_trace w)
  ∧ (∃ w', WndProc P T w window WM_MOUSEMOVE flags (MAKELPARAM (arch P) x y)
           = Returned (w', 0)
           ∧ w_trace w'
             = Call_on_mouse_move (declared_by (T_on_mouse_move T) in_AppWindow)
                 this_ window x y flags :: w_trace w).
Proof.
  intros Hx Hy Hflags Hown Hnn.
  destruct (point_of_MAKELPARAM (arch P) x y Hx Hy) as [Hpx Hpy].
  assert (key_flags flags = flags) as Hkf by (by apply Z.mod_small).
  split.
  - assert (WM_LBUTTONUP ≠ WM_NCCREATE) as Hne by done.
    destruct (WndProc_owner P T w w window WM_LBUTTONUP flags
                (MAKELPARAM (arch P) x y) this_
                (bind_on_create_other w _ _ _ Hne) Hown Hnn)
      as (w' & result & Hret & Htrace & _ & _ & Hzero & _).
    rewrite Hzero in Hret
      by (unfold answerless; rewrite !elem_of_cons; tauto).
    exists w'. split; [done|]. rewrite Htrace. unfold routed_call.
    rewrite Hpx, Hpy, Hkf. by repeat case_bool_decide.
  - assert (WM_MOUSEMOVE ≠ WM_NCCREATE) as Hne by done.
    destruct (WndProc_owner P T w w window WM_MOUSEMOVE flags
                (MAKELPARAM (arch P) x y) this_
                (bind_on_create_other w _ _ _ Hne) Hown Hnn)
      as (w' & result & Hret & Htrace & _ & _ & Hzero & _).
    rewrite Hzero in Hret
      by (unfold answerless; rewrite !elem_of_cons; tauto).
    exists w'. split; [done|]. rewrite Htrace. unfold routed_call.
    rewrite Hpx, Hpy, Hkf. by repeat case_bool_decide.
Qed.

(** X6: whatever the payload, the coordinates a handler is given are the two
    low 16-bit halves of [lParam] read as signed numbers: they lie between
    -32768 and 32767, and a coordinate beyond that range arrives wrapped. *)
Theorem coordinates_are_signed_16_bit
    (w : World) (window message wParam lParam this_ : Z) :
  message ∈ [WM_LBUTTONUP; WM_MOUSEMOVE; WM_NCHITTEST] →
  GetWindowLongPtr w window = this_ → this_ ≠ 0 →
  ∃ w' result call x y,
    WndProc P T w window message wParam lParam = Returned (w', result)
    ∧ w_trace w' = call :: w_trace w
    ∧ call_point call = Some (x, y)
    ∧ - 2 ^ 15 ≤ x < 2 ^ 15 ∧ - 2 ^ 15 ≤ y < 2 ^ 15
    ∧ x mod 2 ^ 16 = lParam mod 2 ^ 16
    ∧ y mod 2 ^ 16 = (lParam / 2 ^ 16) mod 2 ^ 16.
Proof.
  intros Hmessage Hown Hnn.
  assert (message ≠ WM_NCCREATE) as Hne.
  { rewrite !elem_of_cons, elem_of_nil in Hmessage.
    destruct Hmessage as [->|[->|[->|[]]]]; done. }
  destruct (WndProc_owner P T w w window message wParam lParam this_
              (bind_on_create_other w _ _ _ Hne) Hown Hnn)
    as (w' & result & Hret & Htrace & _).
  assert (∀ v, 0 ≤ v < 2 ^ 16 → - 2 ^ 15 ≤ signed16 v < 2 ^ 15) as Hbound.
  { intros v Hv. unfold signed16. case_bool_decide; lia. }
  pose proof (Z.mod_pos_bound lParam (2 ^ 16) ltac:(lia)) as Hlo.
  pose proof (Z.mod_pos_bound (lParam / 2 ^ 16) (2 ^ 16) ltac:(lia)) as Hhi.
  exists w', result, (routed_call T this_ window message wParam lParam),
    (point_x lParam), (point_y lParam).
  split_and!; try done.
  - rewrite !elem_of_cons, elem_of_nil in Hmessage. unfold routed_call.
    destruct Hmessage as [->|[->|[->|[]]]]; by repeat case_bool_decide.
  - by apply Hbound.
  - by apply Hbound.
  - by apply Hbound.
  - by apply Hbound.
  - by apply signed16_mod.
  - by apply signed16_mod.
Qed.

(** X7: the cursor window, the hit-test code and the mouse message of a
    cursor-shape query, packed as the platform packs them, reach
    [on_set_cursor] unchanged. *)
Theorem set_cursor_fields_round_trip
    (w : World) (window hwndCursor codeHitTest msg this_ : Z) :
  0 ≤ codeHitTest < 2 ^ 16 → 0 ≤ msg < 2 ^ 16 →
  GetWindowLongPtr w window = this_ → this_ ≠ 0 →
  ∃ w' result,
    WndProc P T w window WM_SETCURSOR hwndCursor
      (MAKELPARAM (arch P) codeHitTest msg) = Returned (w', result)
    ∧ w_trace w'
      = Call_on_set_cursor (declared_by (T_on_set_cursor T) in_AppWindow)
          this_ window hwndCursor codeHitTest msg :: w_trace w.
Proof.
  intros Hcode Hmsg Hown Hnn.
  destruct (fields_of_MAKELPARAM (arch P) codeHitTest msg Hcode Hmsg)
    as [Hlow Hhigh].
  assert (WM_SETCURSOR ≠ WM_NCCREATE) as Hne by done.
  destruct (WndProc_owner P T w w window WM_SETCURSOR hwndCursor
              (MAKELPARAM (arch P) codeHitTest msg) this_
              (bind_on_create_other w _ _ _ Hne) Hown Hnn)
    as (w' & result & Hret & Htrace & _).
  exists w', result. split; [done|]. rewrite Htrace. unfold routed_call.
  rewrite Hlow, Hhigh. by repeat case_bool_decide.
Qed.

(** The handler calls that a run of messages is for, in the order of the
    messages, with the owners as they are bound at the start. *)
Definition routed_calls (w : World) (msgs : list (Z * Msg)) : list Call :=
  map (λ m, routed_call T (GetWindowLongPtr w m.1) m.1
              (msg_code m.2) (msg_wParam m.2) (msg_lParam m.2)) msgs.

Lemma deliver_trace (msgs : list (Z * Msg)) (w : World) :
  Forall (λ m : Z * Msg, msg_code m.2 ≠ WM_NCCREATE
                         ∧ GetWindowLongPtr w m.1 ≠ 0) msgs →
  ∃ w', deliver P T w msgs = Returned w'
        ∧ w_trace w' = reverse (routed_calls w msgs) ++ w_trace w.
Proof.
  revert w. induction msgs as [|m rest IH]; intros w Hmsgs; simpl.
  - by eexists.
  - apply Forall_cons in Hmsgs as [[Hne Hown] Hrest].
    destruct (WndProc_owner P T w w m.1 (msg_code m.2) (msg_wParam m.2)
                (msg_lParam m.2) _
                (bind_on_create_other w _ _ _ Hne) eq_refl Hown)
      as (w1 & r1 & -> & Htrace & _ & Htab & _).
    cbn [mbind Outcome_bind].
    assert (∀ window, GetWindowLongPtr w1 window = GetWindowLongPtr w window)
      as Hsame.
    { intros window. unfold GetWindowLongPtr. by destruct Htab as (_ & -> & _). }
    destruct (IH w1) as (w' & Hret & Htrace').
    { eapply Forall_impl; [exact Hrest|]. intros m' [? ?]. by rewrite Hsame. }
    exists w'. split; [done|]. rewrite Htrace', Htrace, reverse_cons.
    rewrite <- app_assoc. simpl. f_equal.
    unfold routed_calls. f_equal. apply map_ext. intros m'. by rewrite Hsame.
Qed.

(** X8: a run of messages for windows that have owners, none of them the
    creation message, is dispatched to the end, one handler call for each
    message and in the order of the messages. *)
Theorem deliver_runs_one_handler_per_message
    (msgs : list (Z * Msg)) (w : World) :
  Forall (λ m : Z * Msg, msg_code m.2 ≠ WM_NCCREATE
                         ∧ GetWindowLongPtr w m.1 ≠ 0) msgs →
  ∃ w', deliver P T w msgs = Returned w'
        ∧ w_trace w' = reverse (routed_calls w msgs) ++ w_trace w
        ∧ List.length (w_trace w')
          = (List.length msgs + List.length (w_trace w))%nat.
Proof.
  intros Hmsgs. destruct (deliver_trace msgs w Hmsgs) as (w' & Hret & Htrace).
  exists w'. split_and!; [done..|].
  rewrite Htrace, length_app, length_reverse. unfold routed_calls.
  by rewrite length_map.
Qed.

End Payloads.

(** ** Registration, creation and construction as a whole *)

Section Lifetime.

Context {U : Type} (P : Platform) (T : WindowType U).

Local Abbreviation World := (World U).

Lemma next_fault_tables (w : World) :
  w_classes (next_fault w).2 = w_classes w
  ∧ w_userdata (next_fault w).2 = w_userdata w
  ∧ w_last_error (next_fault w).2 = w_last_error w
  ∧ w_next_hwnd (next_fault w).2 = w_next_hwnd w
  ∧ w_createstructs (next_fault w).2 = w_createstructs w
  ∧ w_objects (next_fault w).2 = w_objects w
  ∧ w_faults (next_fault w).2 = tail (w_faults w).
Proof.
  unfold next_fault. destruct (w_faults w) eqn:Hfaults; simpl; by split_and!.
Qed.

(** What a creation message that was dispatched has done to the tables. *)
Lemma WndProc_creation_returned (w w' : World) window wParam lParam result :
  WndProc P T w window WM_NCCREATE wParam lParam = Returned (w', result) →
  ∃ param,
    w_createstructs w !! lParam = Some param ∧ param ≠ 0
    ∧ w_userdata w' = <[window := param]> (w_userdata w)
    ∧ w_objects w' = <[param := window]> (w_objects w)
    ∧ w_classes w' = w_classes w ∧ w_next_hwnd w' = w_next_hwnd w
    ∧ w_createstructs w' = w_createstructs w.
Proof.
  intros Hret.
  destruct (WndProc_returned P T w w' window WM_NCCREATE wParam lParam result Hret)
    as (w1 & this_ & Hbind & _ & _ & Htab & _).
  destruct (bind_on_create_binds w w1 window lParam Hbind)
    as (param & Hcs & Hnn & Hdata & Hobjects & Hcs1 & Hc & _ & _ & Hn & _).
  destruct Htab as (Hc' & Hd' & _ & _ & Hn' & Hcs' & Ho').
  exists param. split_and!; congruence.
Qed.

(** A creation that gave a handle: which handle, and what it has bound. *)
Lemma CreateWindow_frame (lpClassName lpWindowName : string) (lpParam : Z)
    (w w' : World) (window : Z) :
  Forall (λ m, msg_code m ≠ WM_NCCREATE) (creation_prologue P) →
  Forall (λ m, msg_code m ≠ WM_NCCREATE) (creation_epilogue P) →
  CreateWindow P T lpClassName lpWindowName lpParam w = Returned (w', window) →
  window ≠ 0 →
  window = Z.pos (w_next_hwnd w)
  ∧ w_next_hwnd w' = Pos.succ (w_next_hwnd w)
  ∧ w_userdata w' = <[window := lpParam]> (w_userdata w)
  ∧ w_objects w' = <[lpParam := window]> (w_objects w)
  ∧ w_classes w' = w_classes w
  ∧ lpParam ≠ 0.
Proof.
  intros Hprologue Hepilogue. unfold CreateWindow.
  destruct (w_classes w !! lpClassName); [|by intros [= <- <-]].
  pose proof (next_fault_tables w) as (Hfc & Hfd & _ & Hfn & _ & Hfo & _).
  destruct (next_fault w) as [[e|] wf]; [by intros [= <- <-]|].
  simpl in Hfc, Hfd, Hfn, Hfo.
  set (h := Z.pos (w_next_hwnd wf)).
  set (ws := with_createstructs _ _).
  destruct (send_creation P T ws h (creation_messages P)) as [[w3 ok]| |] eqn:Hsend;
    cbn [mbind Outcome_bind]; try done.
  intros [= <- <-] Hwindow. destruct ok; [|done].
  destruct (send_creation_app _ _ _ _ _ _ _ _ Hsend)
    as (w1 & w2 & result & Hpre & Hcreate & Hpost). simpl in Hcreate.
  pose proof (send_creation_other _ _ _ _ _ _ _ Hprologue Hpre)
    as (Hc1 & Hd1 & _ & _ & Hn1 & Hcs1 & Ho1).
  pose proof (send_creation_other _ _ _ _ _ _ _ Hepilogue Hpost)
    as (Hc3 & Hd3 & _ & _ & Hn3 & _ & Ho3).
  destruct (WndProc_creation_returned _ _ _ _ _ _ Hcreate)
    as (param & Hparam & Hnn & Hd2 & Ho2 & Hc2 & Hn2 & _).
  assert (param = lpParam) as ->.
  { rewrite Hcs1 in Hparam. unfold ws in Hparam. simpl in Hparam.
    rewrite lookup_insert_eq in Hparam. by injection Hparam. }
  unfold ws in *. simpl in *. unfold h. split_and!; try congruence.
  - by rewrite Hd3, Hd2, Hd1, Hfd.
  - by rewrite Ho3, Ho2, Ho1, Hfo.
Qed.

(** The registration touches the classes, the last error and the failures
    still to come. *)
Lemma RegisterClassEx_frame (wndclass : WNDCLASSEX) (w w' : World) (atom : Z) :
  RegisterClassEx wndclass w = (w', atom) →
  w_userdata w' = w_userdata w ∧ w_objects w' = w_objects w
  ∧ w_next_hwnd w' = w_next_hwnd w ∧ w_quit w' = w_quit w
  ∧ w_trace w' = w_trace w ∧ w_user w' = w_user w
  ∧ w_faults w' = tail (w_faults w).
Proof.
  unfold RegisterClassEx, next_fault.
  destruct (w_faults w) as [|[e|] rest] eqn:Hfaults.
  - destruct (w_classes w !! lpszClassName wndclass);
      intros [= <- <-]; simpl; by split_and!.
  - intros [= <- <-]; simpl; by split_and!.
  - simpl. destruct (w_classes w !! lpszClassName wndclass);
      intros [= <- <-]; simpl; by split_and!.
Qed.

Lemma register_class_frame (this : Z) (creation_params : WindowCreationParams)
    (w w' : World) :
  register_class P T this creation_params w = Returned w' →
  w_userdata w' = w_userdata w ∧ w_objects w' = w_objects w
  ∧ w_next_hwnd w' = w_next_hwnd w ∧ w_quit w' = w_quit w
  ∧ w_trace w' = w_trace w ∧ w_user w' = w_user w
  ∧ w_faults w' = tail (w_faults w).
Proof.
  unfold register_class.
  destruct (RegisterClassEx (window_class T) w) as [w1 atom] eqn:Hregister.
  case_match; [done|]. intros [= <-]. by eapply RegisterClassEx_frame.
Qed.

(** A construction that returned: the handle is the next one the platform
    had to give, and the two tables have one more entry each. *)
Lemma AppWindow_ctor_frame (this : Z) (creation_params : WindowCreationParams)
    (w w' : World) :
  Forall (λ m, msg_code m ≠ WM_NCCREATE) (creation_prologue P) →
  Forall (λ m, msg_code m ≠ WM_NCCREATE) (creation_epilogue P) →
  AppWindow_ctor P T this creation_params w = Returned w' →
  this ≠ 0
  ∧ w_next_hwnd w' = Pos.succ (w_next_hwnd w)
  ∧ w_userdata w' = <[Z.pos (w_next_hwnd w) := this]> (w_userdata w)
  ∧ w_objects w' = <[this := Z.pos (w_next_hwnd w)]> (w_objects w).
Proof.
  intros Hprologue Hepilogue. unfold AppWindow_ctor.
  destruct (register_class P T this creation_params (Window_ctor this w))
    as [w1| |] eqn:Hreg; cbn [mbind Outcome_bind]; try done.
  destruct (register_class_frame _ _ _ _ Hreg) as (Hd1 & Ho1 & Hn1 & _).
  unfold create.
  destruct (CreateWindow P T (get_class_name T) (caption creation_params) this w1)
    as [[w2 window]| |] eqn:Hcreate; cbn [mbind Outcome_bind]; try done.
  case_bool_decide as Hwindow; [done|]. intros [= <-].
  destruct (CreateWindow_frame _ _ _ _ _ _ Hprologue Hepilogue Hcreate Hwindow)
    as (-> & Hn2 & Hd2 & Ho2 & _ & Hnn).
  simpl in *. rewrite Hn1 in *. simpl in *.
  split_and!; try congruence.
  rewrite Ho2, Ho1. simpl. by rewrite !insert_insert_eq.
Qed.

End Lifetime.

(** The world right after the creation message bound [window] to the object
    at [param]. *)
Definition bound_by_creation {U : Type} (w : World U) (window param : Z)
  : World U :=
  SetWindowLongPtr window param
    (with_objects (<[param := window]> (w_objects w)) w).

(** A platform whose default processing lets a creation go on. *)
Definition accepts_creation (P : Platform) : Prop :=
  ∀ window wParam lParam,
    DefWindowProc P window WM_NCCREATE wParam lParam ≠ 0
    ∧ DefWindowProc P window WM_CREATE wParam lParam ≠ -1.

Section LifetimeProperties.

Context {U : Type} (P : Platform) (T : WindowType U).

Local Abbreviation World := (World U).

Lemma WndProc_creation_forward (w : World) (window wParam lParam param : Z) :
  w_createstructs w !! lParam = Some param →
  param ≠ 0 → is_Some (w_objects w !! param) →
  ∃ w',
    WndProc P T w window WM_NCCREATE wParam lParam
      = Returned (w', (on_message P T param window (to_int WM_NCCREATE)
                         wParam lParam (bound_by_creation w window param)).2)
    ∧ GetWindowLongPtr w' window = param.
Proof.
  intros Hcs Hnn [old Hobject].
  assert (bind_on_create w window WM_NCCREATE lParam
          = Returned (bound_by_creation w window param)) as Hbind.
  { unfold bind_on_create. rewrite bool_decide_eq_true_2, Hcs by done.
    by rewrite bool_decide_eq_false_2, Hobject by done. }
  assert (GetWindowLongPtr (bound_by_creation w window param) window = param)
    as Hown.
  { unfold GetWindowLongPtr, bound_by_creation. simpl.
    by rewrite lookup_insert_eq. }
  destruct (WndProc_owner P T w _ window WM_NCCREATE wParam lParam param
              Hbind Hown Hnn)
    as (w' & result & Hret & _ & _ & Htab & _ & Hfallback).
  destruct Hfallback as [_ ->].
  { rewrite supported_cases. intros [?|[?|[?|[?|[?|?]]]]]; done. }
  exists w'. split; [done|].
  destruct Htab as (_ & Hdata & _). unfold GetWindowLongPtr in *.
  by rewrite Hdata.
Qed.

Lemma register_class_no_fault (this : Z) (creation_params : WindowCreationParams)
    (w : World) :
  w_faults w = [] →
  ∃ w', register_class P T this creation_params w = Returned w'
        ∧ is_Some (w_classes w' !! get_class_name T).
Proof.
  intros Hfaults. unfold register_class, RegisterClassEx, next_fault.
  rewrite Hfaults.
  destruct (w_classes w !! lpszClassName (window_class T)) as [c|] eqn:Hclass.
  - cbn [GetLastError with_last_error w_last_error].
    rewrite bool_decide_eq_true_2 by done.
    rewrite (bool_decide_eq_false_2 (_ ≠ _)) by naive_solver.
    eexists. split; [done|]. simpl in *. by rewrite Hclass.
  - rewrite (bool_decide_eq_false_2 (class_atom = 0)) by done.
    eexists. split; [done|]. simpl. by rewrite lookup_insert_eq.
Qed.

(** The messages after the creation message, for a window that has its
    owner and a type that leaves [on_message] alone. *)
Lemma send_creation_accepted (msgs : list Msg) (w : World) (window : Z) :
  T_on_message T = None → accepts_creation P →
  Forall (λ m, msg_code m ≠ WM_NCCREATE) msgs →
  GetWindowLongPtr w window ≠ 0 →
  ∃ w', send_creation P T w window msgs = Returned (w', true).
Proof.
  intros Hnone Haccepts Hmsgs. revert w.
  induction Hmsgs as [|m rest Hm _ IH]; intros w Hown; simpl.
  - by eexists.
  - destruct (WndProc_owner P T w w window (msg_code m) (msg_wParam m)
                (msg_lParam m) _ (bind_on_create_other w _ _ _ Hm) eq_refl Hown)
      as (w1 & r1 & -> & _ & _ & Htab & _ & Hfallback).
    cbn [mbind Outcome_bind].
    assert (vetoes (msg_code m) r1 = false) as ->.
    { unfold vetoes. rewrite (bool_decide_eq_false_2 (_ = WM_NCCREATE)) by done.
      simpl. case_bool_decide as Hcreate; [|done]. simpl.
      apply bool_decide_eq_false_2.
      destruct Hfallback as [_ ->].
      { rewrite Hcreate, supported_cases. intros [?|[?|[?|[?|[?|?]]]]]; done. }
      destruct (on_message_spec P T (GetWindowLongPtr w window) window
                  (to_int (msg_code m)) (msg_wParam m) (msg_lParam m) w)
        as (_ & _ & _ & _ & Hdefault).
      rewrite (Hdefault Hnone), Hcreate. apply Haccepts. }
    apply IH. destruct Htab as (_ & Hdata & _).
    unfold GetWindowLongPtr. rewrite Hdata. exact Hown.
Qed.

(** X9: a registration that returns has removed and replaced nothing: every
    class keeps the descriptor it had, the class of the type included when it
    was there already; and unless the platform reports "already exists" for
    a class that is not there, the class of the type is registered
    afterwards, with the descriptor of lines 128-136 when it is new. *)
Theorem register_class_keeps_classes
    (this : Z) (creation_params : WindowCreationParams) (w w' : World) :
  register_class P T this creation_params w = Returned w' →
  (∀ name c, w_classes w !! name = Some c → w_classes w' !! name = Some c)
  ∧ (∀ name, name ≠ get_class_name T →
       w_classes w' !! name = w_classes w !! name)
  ∧ ((next_fault w).1 ≠ Some ERROR_CLASS_ALREADY_EXISTS →
     w_classes w' !! get_class_name T
     = Some (default (window_class T) (w_classes w !! get_class_name T))).
Proof.
  unfold register_class, RegisterClassEx.
  pose proof (next_fault_tables w) as (Hclasses & _).
  destruct (next_fault w) as [[e|] wf]; simpl in Hclasses.
  - cbn [GetLastError with_last_error w_last_error].
    rewrite bool_decide_eq_true_2 by done. cbn [andb].
    case_bool_decide as Herror; [done|]. intros [= <-]. simpl.
    split_and!.
    + intros name c Hname. by rewrite Hclasses.
    + intros name _. by rewrite Hclasses.
    + intros Hsane. exfalso. apply Hsane. by rewrite Herror.
  - change (lpszClassName (window_class T)) with (get_class_name T).
    rewrite Hclasses.
    destruct (w_classes w !! get_class_name T) as [c|] eqn:Hclass.
    + cbn [GetLastError with_last_error w_last_error].
      rewrite bool_decide_eq_true_2 by done.
      rewrite (bool_decide_eq_false_2 (_ ≠ _)) by naive_solver.
      intros [= <-]. simpl. split_and!.
      * intros name c' Hname. by rewrite Hclasses.
      * intros name _. by rewrite Hclasses.
      * intros _. by rewrite Hclasses.
    + rewrite (bool_decide_eq_false_2 (class_atom = 0)) by done.
      intros [= <-]. simpl. split_and!.
      * intros name c Hname. rewrite lookup_insert_ne; [done|].
        intros <-. congruence.
      * intros name Hname. by rewrite lookup_insert_ne.
      * intros _. by rewrite lookup_insert_eq.
Qed.

(** X10: with a platform that reports no failure, sends nothing before the
    creation message and, by default, lets a creation go on, the constructor
    of a type that leaves [on_message] alone returns for every object: the
    object holds the handle the platform issued and that handle is bound to
    the object. *)
Theorem construction_succeeds
    (this : Z) (creation_params : WindowCreationParams) (w : World) :
  this ≠ 0 → w_faults w = [] →
  creation_prologue P = [] →
  Forall (λ m, msg_code m ≠ WM_NCCREATE) (creation_epilogue P) →
  T_on_message T = None → accepts_creation P →
  ∃ w',
    AppWindow_ctor P T this creation_params w = Returned w'
    ∧ m_window w' this = Z.pos (w_next_hwnd w)
    ∧ GetWindowLongPtr w' (Z.pos (w_next_hwnd w)) = this.
Proof.
  intros Hthis Hfaults Hprologue Hepilogue Hnone Haccepts.
  assert (∃ w', AppWindow_ctor P T this creation_params w = Returned w')
    as [w' Hret].
  { unfold AppWindow_ctor.
    destruct (register_class_no_fault this creation_params (Window_ctor this w))
      as (w1 & Hreg & [c Hclass]); [done|].
    destruct (register_class_frame P T _ _ _ _ Hreg)
      as (_ & Ho1 & _ & _ & _ & _ & Hf1).
    rewrite Hreg. cbn [mbind Outcome_bind]. unfold create, CreateWindow.
    rewrite Hclass. unfold next_fault. rewrite Hf1. simpl. rewrite Hfaults. simpl.
    unfold creation_messages. rewrite Hprologue. simpl.
    set (ws := with_createstructs _ _).
    destruct (WndProc_creation_forward ws (Z.pos (w_next_hwnd w1)) 0
                (createstruct_addr P) this) as (w2 & -> & Hown).
    { unfold ws. simpl. by rewrite lookup_insert_eq. }
    { done. }
    { unfold ws. simpl. rewrite Ho1. simpl. rewrite lookup_insert_eq.
      by eexists. }
    cbn [mbind Outcome_bind].
    destruct (on_message_spec P T this (Z.pos (w_next_hwnd w1))
                (to_int WM_NCCREATE) 0 (createstruct_addr P)
                (bound_by_creation ws (Z.pos (w_next_hwnd w1)) this))
      as (_ & _ & _ & _ & Hdefault).
    rewrite (Hdefault Hnone).
    assert (vetoes WM_NCCREATE
              (DefWindowProc P (Z.pos (w_next_hwnd w1))
                 (to_UINT (to_int WM_NCCREATE)) 0 (createstruct_addr P))
            = false) as ->.
    { unfold vetoes. rewrite bool_decide_eq_true_2 by done. simpl.
      rewrite (bool_decide_eq_false_2 (_ = 0)) by apply Haccepts. done. }
    destruct (send_creation_accepted (creation_epilogue P) w2
                (Z.pos (w_next_hwnd w1)) Hnone Haccepts Hepilogue)
      as (w3 & ->); [by rewrite Hown|].
    cbn [mbind Outcome_bind]. rewrite bool_decide_eq_false_2 by done.
    by eexists. }
  exists w'. split; [done|].
  destruct (AppWindow_ctor_frame P T this creation_params w w')
    as (_ & _ & Hdata & Hobjects); [by rewrite Hprologue|done..|].
  unfold m_window, GetWindowLongPtr.
  by rewrite Hdata, Hobjects, !lookup_insert_eq.
Qed.

(** X11: when the platform sends something before the creation message to a
    handle that is new, the window procedure is entered for that message
    with no owner in the slot: it skips the [switch] and makes the call
    [this_->on_message] of line 202 through a null [this_], which has no
    defined behaviour.  [create] is then neither [Returned] nor [Raised]
    here: its outcome is that undefined call, and what a compiled program
    goes on to do after it is not stated. *)
Theorem early_message_faults_creation
    (this : Z) (creation_params : WindowCreationParams) (w : World)
    (m : Msg) (rest : list Msg) :
  creation_prologue P = m :: rest → msg_code m ≠ WM_NCCREATE →
  is_Some (w_classes w !! get_class_name T) →
  (next_fault w).1 = None →
  w_userdata w !! Z.pos (w_next_hwnd w) = None →
  let window := Z.pos (w_next_hwnd w) in
  let ws :=
    with_createstructs
      (<[createstruct_addr P := this]> (w_createstructs (next_fault w).2))
      (with_next_hwnd (Pos.succ (w_next_hwnd (next_fault w).2))
         (next_fault w).2) in
  GetWindowLongPtr ws window = 0
  ∧ WndProc P T ws window (msg_code m) (msg_wParam m) (msg_lParam m)
    = call_on_message P T ws 0 window (msg_code m) (msg_wParam m) (msg_lParam m)
  ∧ call_on_message P T ws 0 window (msg_code m) (msg_wParam m) (msg_lParam m)
    = Faulted null_this_call
  ∧ create P T this creation_params w = Faulted null_this_call.
Proof.
  intros Hprologue Hm [c Hclass] Hfault Hnew window ws.
  pose proof (next_fault_tables w) as (_ & Hdata & _ & Hnext & _).
  assert (GetWindowLongPtr ws window = 0) as Hnull.
  { unfold GetWindowLongPtr, ws, window. simpl. by rewrite Hdata, Hnew. }
  assert (WndProc P T ws window (msg_code m) (msg_wParam m) (msg_lParam m)
          = call_on_message P T ws 0 window (msg_code m) (msg_wParam m)
              (msg_lParam m)) as Hcall.
  { unfold WndProc. rewrite bind_on_create_other by done.
    cbn [mbind Outcome_bind]. rewrite Hnull.
    by rewrite bool_decide_eq_false_2 by naive_solver. }
  split_and!; [done..|].
  unfold create, CreateWindow. rewrite Hclass.
  unfold ws, window in Hcall. clear Hnull. revert Hcall.
  destruct (next_fault w) as [fault wf]. simpl in Hfault, Hnext. subst fault.
  simpl. rewrite Hnext. intros Hcall.
  unfold creation_messages. rewrite Hprologue. simpl. by rewrite Hcall.
Qed.

(** X12: a type whose [on_message] answers 0 to the creation message stops
    the creation of its own windows: with a platform that reports no failure
    the constructor leaves by the failure of ["CreateWindow"]. *)
Theorem refused_creation_raises
    (this : Z) (creation_params : WindowCreationParams) (w : World) :
  this ≠ 0 → w_faults w = [] → creation_prologue P = [] →
  (∀ w0 : World,
     (on_message P T this (Z.pos (w_next_hwnd w)) (to_int WM_NCCREATE) 0
        (createstruct_addr P) w0).2 = 0) →
  ∃ error_code,
    AppWindow_ctor P T this creation_params w
      = Raised (make_win32_error P "CreateWindow" error_code).
Proof.
  intros Hthis Hfaults Hprologue Hrefuses. unfold AppWindow_ctor.
  destruct (register_class_no_fault this creation_params (Window_ctor this w))
    as (w1 & Hreg & [c Hclass]); [done|].
  destruct (register_class_frame P T _ _ _ _ Hreg)
    as (_ & Ho1 & Hn1 & _ & _ & _ & Hf1).
  rewrite Hreg. cbn [mbind Outcome_bind]. unfold create, CreateWindow.
  rewrite Hclass. unfold next_fault. rewrite Hf1. simpl. rewrite Hfaults. simpl.
  unfold creation_messages. rewrite Hprologue. simpl.
  set (ws := with_createstructs _ _).
  destruct (WndProc_creation_forward ws (Z.pos (w_next_hwnd w1)) 0
              (createstruct_addr P) this) as (w2 & -> & Hown).
  { unfold ws. simpl. by rewrite lookup_insert_eq. }
  { done. }
  { unfold ws. simpl. rewrite Ho1. simpl. rewrite lookup_insert_eq.
    by eexists. }
  cbn [mbind Outcome_bind]. rewrite Hn1. simpl. rewrite Hrefuses.
  assert (vetoes WM_NCCREATE 0 = true) as -> by done.
  cbn [mbind Outcome_bind]. rewrite bool_decide_eq_true_2 by done.
  by eexists.
Qed.

(** X13: a window of a type that inherits [on_destroy] from [MainWindow<T>],
    once constructed, answers the destroy message for its handle by asking
    the pump to stop with exit code 1, and returns 0 to the platform. *)
Theorem destroying_a_main_window_stops_the_pump
    (this : Z) (creation_params : WindowCreationParams) (w w' : World)
    (wParam lParam : Z) :
  Forall (λ m, msg_code m ≠ WM_NCCREATE) (creation_prologue P) →
  Forall (λ m, msg_code m ≠ WM_NCCREATE) (creation_epilogue P) →
  wt_base T = MainWindow_base → T_on_destroy T = None →
  AppWindow_ctor P T this creation_params w = Returned w' →
  ∃ w'',
    WndProc P T w' (m_window w' this) WM_DESTROY wParam lParam
      = Returned (w'', 0)
    ∧ w_quit w'' = 1 :: w_quit w'.
Proof.
  intros Hprologue Hepilogue Hbase Hnone Hctor.
  destruct (AppWindow_ctor_frame P T this creation_params w w'
              Hprologue Hepilogue Hctor) as (Hthis & _ & Hdata & Hobjects).
  assert (m_window w' this = Z.pos (w_next_hwnd w)) as ->.
  { unfold m_window. by rewrite Hobjects, lookup_insert_eq. }
  assert (GetWindowLongPtr w' (Z.pos (w_next_hwnd w)) = this) as Hown.
  { unfold GetWindowLongPtr. by rewrite Hdata, lookup_insert_eq. }
  assert (WM_DESTROY ≠ WM_NCCREATE) as Hne by done.
  destruct (WndProc_owner P T w' w' (Z.pos (w_next_hwnd w)) WM_DESTROY
              wParam lParam this (bind_on_create_other w' _ _ _ Hne) Hown Hthis)
    as (w'' & result & Hret & _ & _ & _ & Hzero & _).
  rewrite Hzero in Hret by (unfold answerless; rewrite !elem_of_cons; tauto).
  exists w''. split; [done|].
  destruct (WndProc_returned P T _ _ _ _ _ _ _ Hret)
    as (w1 & _ & Hbind & _ & _ & _ & _ & Hquit).
  rewrite bind_on_create_other in Hbind by done. injection Hbind as <-.
  rewrite Hquit. unfold destroy_hook_inherited. by rewrite Hnone, Hbase.
Qed.

End LifetimeProperties.

Section TwoWindows.

Context {U : Type} (P : Platform) (T1 T2 : WindowType U).

(** X14: two objects constructed one after the other, of the same type or
    not, get two different handles; the second construction leaves the
    handle of the first object and its binding as they were, and each handle
    leads back to its own object. *)
Theorem second_window_is_independent
    (this1 this2 : Z) (params1 params2 : WindowCreationParams)
    (w w1 w2 : World U) :
  Forall (λ m, msg_code m ≠ WM_NCCREATE) (creation_prologue P) →
  Forall (λ m, msg_code m ≠ WM_NCCREATE) (creation_epilogue P) →
  this1 ≠ this2 →
  AppWindow_ctor P T1 this1 params1 w = Returned w1 →
  AppWindow_ctor P T2 this2 params2 w1 = Returned w2 →
  m_window w2 this1 = m_window w1 this1
  ∧ m_window w2 this2 ≠ m_window w2 this1
  ∧ GetWindowLongPtr w2 (m_window w2 this1) = this1
  ∧ GetWindowLongPtr w2 (m_window w2 this2) = this2.
Proof.
  intros Hprologue Hepilogue Hdistinct Hfirst Hsecond.
  destruct (AppWindow_ctor_frame P T1 this1 params1 w w1
              Hprologue Hepilogue Hfirst) as (_ & Hn1 & Hd1 & Ho1).
  destruct (AppWindow_ctor_frame P T2 this2 params2 w1 w2
              Hprologue Hepilogue Hsecond) as (_ & _ & Hd2 & Ho2).
  assert (m_window w1 this1 = Z.pos (w_next_hwnd w)) as Hh1.
  { unfold m_window. by rewrite Ho1, lookup_insert_eq. }
  assert (m_window w2 this1 = Z.pos (w_next_hwnd w)) as Hh1'.
  { unfold m_window. rewrite Ho2, lookup_insert_ne by done.
    by rewrite Ho1, lookup_insert_eq. }
  assert (m_window w2 this2 = Z.pos (Pos.succ (w_next_hwnd w))) as Hh2.
  { unfold m_window. by rewrite Ho2, lookup_insert_eq, Hn1. }
  rewrite Hh1, Hh1', Hh2. split_and!; [done|lia| |].
  - unfold GetWindowLongPtr. rewrite Hd2, Hn1, lookup_insert_ne by lia.
    by rewrite Hd1, lookup_insert_eq.
  - unfold GetWindowLongPtr. by rewrite Hd2, Hn1, lookup_insert_eq.
Qed.

End TwoWindows.

(** ** Texts *)

Definition is_digit (c : ascii) : bool :=
  (48 <=? nat_of_ascii c)%nat && (nat_of_ascii c <=? 57)%nat.

Fixpoint all_digits (s : string) : bool :=
  match s with
  | EmptyString => true
  | String c rest => is_digit c && all_digits rest
  end.

(** A text that cannot go on a number: it is over, or starts with something
    that is not a digit. *)
Definition ends_number (s : string) : bool :=
  match s with
  | EmptyString => true
  | String c _ => negb (is_digit c)
  end.

Lemma pretty_N_char_digit x : is_digit (pretty_N_char x) = true.
Proof. unfold pretty_N_char. by repeat case_match. Qed.

Lemma pretty_N_go_digits x s :
  all_digits s = true → all_digits (pretty_N_go x s) = true.
Proof.
  revert s. induction (N.lt_wf_0 x) as [x _ IH]; intros s Hs.
  destruct (decide (x = 0%N)) as [->|Hx].
  - by rewrite pretty_N_go_0.
  - rewrite pretty_N_go_step by lia. apply IH.
    + apply N.div_lt; lia.
    + simpl. by rewrite pretty_N_char_digit.
Qed.

Lemma pretty_N_go_length x s :
  (strlen s ≤ strlen (pretty_N_go x s))%nat
  ∧ (x ≠ 0%N → (strlen s < strlen (pretty_N_go x s))%nat).
Proof.
  revert s. induction (N.lt_wf_0 x) as [x _ IH]; intros s.
  destruct (decide (x = 0%N)) as [->|Hx].
  - rewrite pretty_N_go_0. split; [lia|done].
  - rewrite pretty_N_go_step by lia.
    destruct (IH (x `div` 10)%N ltac:(apply N.div_lt; lia)
                (String (pretty_N_char (x `mod` 10)) s)) as [Hle _].
    simpl in Hle. split; [lia|]. intros _. lia.
Qed.

Lemma pretty_N_digits (n : N) :
  all_digits (pretty n) = true ∧ pretty n ≠ EmptyString.
Proof.
  unfold pretty, pretty_N. case_decide as Hn; [done|]. split.
  - by apply pretty_N_go_digits.
  - destruct (pretty_N_go_length n EmptyString) as [_ Hlt].
    intros Hempty. rewrite Hempty in Hlt. specialize (Hlt Hn). simpl in Hlt. lia.
Qed.

Lemma str_app_assoc (a b c : string) : (a +:+ b) +:+ c = a +:+ (b +:+ c).
Proof.
  induction a as [|x a IH]; [done|].
  change (String x ((a +:+ b) +:+ c) = String x (a +:+ (b +:+ c))).
  by f_equal.
Qed.

Lemma str_app_cancel (a x y : string) : a +:+ x = a +:+ y → x = y.
Proof.
  induction a as [|c a IH]; [done|].
  change (String c (a +:+ x) = String c (a +:+ y) → x = y).
  intros [= Heq]. by apply IH.
Qed.

(** A number followed by what cannot go on a number is read back in one
    way. *)
Lemma number_prefix_unique (d1 d2 r1 r2 : string) :
  all_digits d1 = true → all_digits d2 = true →
  ends_number r1 = true → ends_number r2 = true →
  d1 +:+ r1 = d2 +:+ r2 → d1 = d2.
Proof.
  revert d2. induction d1 as [|c1 d1 IH]; intros [|c2 d2] Hd1 Hd2 Hr1 Hr2 Heq;
    simpl in Hd1, Hd2; try done.
  - change (r1 = String c2 (d2 +:+ r2)) in Heq. subst r1. simpl in Hr1.
    apply andb_true_iff in Hd2 as [Hc2 _]. by rewrite Hc2 in Hr1.
  - change (String c1 (d1 +:+ r1) = r2) in Heq. subst r2. simpl in Hr2.
    apply andb_true_iff in Hd1 as [Hc1 _]. by rewrite Hc1 in Hr2.
  - change (String c1 (d1 +:+ r1) = String c2 (d2 +:+ r2)) in Heq.
    injection Heq as -> Heq.
    apply andb_true_iff in Hd1 as [_ Hd1]. apply andb_true_iff in Hd2 as [_ Hd2].
    f_equal. by eapply IH.
Qed.

(** What [format] puts after the code. *)
Definition description_part (P : Platform) (error_code : N) : string :=
  let '(stored, description) := FormatMessageA P error_code in
  if bool_decide (stored ≠ 0%nat)
  then ": " +:+ win32_error.strip description
  else EmptyString.

Lemma format_parts (P : Platform) (message : string) (error_code : N) :
  win32_error.format P message error_code
  = message +:+ ": error " +:+ pretty error_code
      +:+ description_part P error_code.
Proof.
  unfold win32_error.format, description_part.
  destruct (FormatMessageA P error_code) as [stored description].
  case_bool_decide.
  - by rewrite !str_app_assoc.
  - by rewrite str_app_empty.
Qed.

(** X15: [strip] takes nothing away but one final CR LF: the description
    comes back whole, or it is what came back followed by CR LF.  A
    description of fewer than two characters, and one that ends in a line
    feed with no carriage return before it, come back whole. *)
Theorem strip_takes_one_line_break_at_most (description : string) :
  (win32_error.strip description = description
   ∨ description = win32_error.strip description +:+ CRLF)
  ∧ ((strlen description < 2)%nat →
     win32_error.strip description = description)
  ∧ (∀ body c, c ≠ "013"%char →
       description = body +:+ String c (String "010"%char EmptyString) →
       win32_error.strip description = description).
Proof.
  split_and!.
  - unfold win32_error.strip.
    case_bool_decide as Hlen; [|by left]. case_bool_decide as Htail; [|by left].
    right. cbn [andb]. rewrite <- Htail. symmetry. apply str_cut_from. lia.
  - intros Hshort. unfold win32_error.strip.
    by rewrite bool_decide_eq_false_2 by lia.
  - intros body c Hc ->. apply strip_other. intros body' Heq.
    assert (str_from (strlen body)
              (body +:+ String c (String "010"%char EmptyString))
            = str_from (strlen body) (body' +:+ CRLF)) as Htails
      by (by rewrite Heq).
    rewrite str_from_app in Htails.
    assert (strlen body = strlen body') as Hlen.
    { apply (f_equal strlen) in Heq. rewrite !strlen_app in Heq.
      simpl in Heq. lia. }
    rewrite Hlen, str_from_app in Htails. by injection Htails.
Qed.

(** X16: the class name of a type is a number written in decimal: it is not
    empty and has nothing but digits in it. *)
Theorem class_name_is_decimal {U : Type} (T : WindowType U) :
  get_class_name T ≠ EmptyString ∧ all_digits (get_class_name T) = true.
Proof.
  unfold get_class_name.
  destruct (pretty_N_digits (wt_WndProc T)) as [Hdigits Hne]. by split.
Qed.

(** X17: the text of a failure tells the error code: with the same label,
    two different codes never give the same text, whatever the platform has
    to say about them. *)
Theorem failure_text_identifies_code
    (P : Platform) (message : string) (code1 code2 : N) :
  code1 ≠ code2 →
  win32_error.format P message code1 ≠ win32_error.format P message code2.
Proof.
  intros Hcodes. rewrite !format_parts. intros Heq.
  apply str_app_cancel, str_app_cancel in Heq.
  apply Hcodes, (inj pretty).
  apply (number_prefix_unique _ _ (description_part P code1)
           (description_part P code2)); [| | | |done].
  - apply pretty_N_digits.
  - apply pretty_N_digits.
  - unfold description_part. destruct (FormatMessageA P code1).
    by case_bool_decide.
  - unfold description_part. destruct (FormatMessageA P code2).
    by case_bool_decide.
Qed.

(** ** Examples of the further properties *)

(** Window 1 is owned by the object at 500, window 2 by the object at 600. *)
Definition two_windows_world : World clicks :=
  {| w_classes := ∅; w_userdata := {[ 1 := 500; 2 := 600 ]}; w_last_error := 0;
     w_faults := []; w_next_hwnd := 3; w_createstructs := ∅;
     w_objects := {[ 500 := 1; 600 := 2 ]}; w_quit := []; w_trace := [];
     w_user := [] |}.

(** A type whose [on_message] answers 0 to everything. *)
Definition deaf_window : WindowType clicks :=
  {| wt_base := AppWindow_base; wt_WndProc := 4210688;
     T_on_destroy := None; T_on_left_button_up := None; T_on_mouse_move := None;
     T_on_hittest := None; T_on_paint := None; T_on_set_cursor := None;
     T_on_message := Some (λ this window message wParam lParam seen, (seen, 0)) |}.

(** The class of [main_window] is registered. *)
Definition registered_world : World clicks :=
  with_classes {[ get_class_name main_window := window_class main_window ]}
    fresh_world.

Lemma creation_message_binds_then_dispatches_witness :
  ∃ w' result,
    WndProc sample_platform plain_window creating_world 1 WM_NCCREATE 0 4096
      = Returned (w', result)
    ∧ m_window w' 500 = 1 ∧ GetWindowLongPtr w' 1 = 500 ∧ result = 7.
Proof.
  destruct (creation_message_binds_then_dispatches sample_platform plain_window
              creating_world 1 0 4096 500)
    as (w' & result & Hret & Hwindow & Hown & _ & Hresult);
    [reflexivity|done|by eexists|].
  exists w', result. split_and!; [done..|]. by rewrite Hresult.
Defined.

Lemma dispatch_leaves_other_windows_alone_witness :
  ∃ w' result,
    WndProc sample_platform main_window two_windows_world 1 WM_DESTROY 0 0
      = Returned (w', result)
    ∧ GetWindowLongPtr w' 2 = 600 ∧ m_window w' 600 = 2.
Proof.
  assert (∃ w' result,
            WndProc sample_platform main_window two_windows_world 1 WM_DESTROY 0 0
            = Returned (w', result)) as (w' & result & Hret)
    by (eexists _, _; vm_compute; reflexivity).
  destruct (dispatch_leaves_other_windows_alone sample_platform main_window
              two_windows_world w' 1 WM_DESTROY 0 0 result Hret)
    as (Hother & _ & _ & Hobjects).
  exists w', result. split; [done|]. split.
  - by rewrite Hother.
  - by rewrite Hobjects.
Defined.

Lemma quit_posted_by_inherited_destroy_hook_only_witness :
  (∃ w' result,
     WndProc sample_platform main_window bound_world 1 WM_DESTROY 0 0
       = Returned (w', result) ∧ w_quit w' = [1])
  ∧ (∃ w' result,
       WndProc sample_platform plain_window bound_world 1 WM_DESTROY 0 0
         = Returned (w', result) ∧ w_quit w' = []).
Proof.
  split.
  - assert (∃ w' result,
              WndProc sample_platform main_window bound_world 1 WM_DESTROY 0 0
              = Returned (w', result)) as (w' & result & Hret)
      by (eexists _, _; vm_compute; reflexivity).
    exists w', result. split; [done|].
    by rewrite (quit_posted_by_inherited_destroy_hook_only sample_platform
                  main_window bound_world w' 1 WM_DESTROY 0 0 result Hret).
  - assert (∃ w' result,
              WndProc sample_platform plain_window bound_world 1 WM_DESTROY 0 0
              = Returned (w', result)) as (w' & result & Hret)
      by (eexists _, _; vm_compute; reflexivity).
    exists w', result. split; [done|].
    by rewrite (quit_posted_by_inherited_destroy_hook_only sample_platform
                  plain_window bound_world w' 1 WM_DESTROY 0 0 result Hret).
Defined.

(** [WM_NCDESTROY] has no handler of its own. *)
Lemma unhandled_message_gets_default_answer_witness :
  ∃ w', WndProc sample_platform plain_window bound_world 1 WM_NCDESTROY 0 0
        = Returned (w', 7).
Proof.
  destruct (unhandled_message_gets_default_answer sample_platform plain_window
              bound_world 1 WM_NCDESTROY 0 0 500) as (w' & Hret & _);
    [done|done| |done|reflexivity|done|].
  { rewrite supported_cases. intros [?|[?|[?|[?|[?|?]]]]]; done. }
  by exists w'.
Defined.

Lemma mouse_point_round_trip_witness :
  ∃ w', WndProc sample_platform click_window bound_world 1 WM_LBUTTONUP 4
          (MAKELPARAM x64 (-3) 7) = Returned (w', 0)
        ∧ w_trace w' = [Call_on_left_button_up in_T 500 1 (-3) 7 4].
Proof.
  destruct (mouse_point_round_trip sample_platform click_window bound_world
              1 (-3) 7 4 500) as [(w' & Hret & Htrace) _];
    [done|done|done|reflexivity|done|].
  by exists w'.
Defined.

(** A pointer at x = 40000 is seen at x = -25536. *)
Lemma coordinates_are_signed_16_bit_witness :
  ∃ w' result call,
    WndProc sample_platform plain_window bound_world 1 WM_MOUSEMOVE 0 40000
      = Returned (w', result)
    ∧ w_trace w' = [call] ∧ call_point call = Some (-25536, 0).
Proof.
  destruct (coordinates_are_signed_16_bit sample_platform plain_window
              bound_world 1 WM_MOUSEMOVE 0 40000 500)
    as (w' & result & call & x & y & Hret & Htrace & Hpoint & Hx & Hy & Hxm & Hym);
    [by rewrite !elem_of_cons; tauto|reflexivity|done|].
  exists w', result, call. split_and!; [done..|].
  rewrite Hpoint. f_equal. f_equal.
  - change (40000 mod 2 ^ 16) with 40000 in Hxm.
    pose proof (Z.div_mod x (2 ^ 16) ltac:(lia)). lia.
  - change ((40000 / 2 ^ 16) mod 2 ^ 16) with 0 in Hym.
    pose proof (Z.div_mod y (2 ^ 16) ltac:(lia)). lia.
Defined.

Lemma set_cursor_fields_round_trip_witness :
  ∃ w' result,
    WndProc sample_platform plain_window bound_world 1 WM_SETCURSOR 1
      (MAKELPARAM x64 1 0x0200) = Returned (w', result)
    ∧ w_trace w' = [Call_on_set_cursor in_AppWindow 500 1 1 1 0x0200].
Proof.
  destruct (set_cursor_fields_round_trip sample_platform plain_window
              bound_world 1 1 1 0x0200 500) as (w' & result & Hret & Htrace);
    [done|done|reflexivity|done|].
  by exists w', result.
Defined.

Lemma deliver_runs_one_handler_per_message_witness :
  ∃ w',
    deliver sample_platform main_window two_windows_world
      [(1, {| msg_code := WM_PAINT; msg_wParam := 0; msg_lParam := 0 |});
       (2, {| msg_code := WM_DESTROY; msg_wParam := 0; msg_lParam := 0 |})]
      = Returned w'
    ∧ w_trace w' = [Call_on_destroy in_MainWindow 600 2;
                    Call_on_paint in_AppWindow 500 1].
Proof.
  destruct (deliver_runs_one_handler_per_message sample_platform main_window
      [(1, {| msg_code := WM_PAINT; msg_wParam := 0; msg_lParam := 0 |});
       (2, {| msg_code := WM_DESTROY; msg_wParam := 0; msg_lParam := 0 |})]
      two_windows_world) as (w' & Hret & Htrace & _).
  { repeat constructor; done. }
  by exists w'.
Defined.

Lemma register_class_keeps_classes_witness :
  ∃ w',
    register_class sample_platform plain_window 500 {| caption := "" |}
      registered_world = Returned w'
    ∧ w_classes w' !! get_class_name main_window = Some (window_class main_window)
    ∧ w_classes w' !! get_class_name plain_window
      = Some (window_class plain_window).
Proof.
  assert (∃ w', register_class sample_platform plain_window 500
                  {| caption := "" |} registered_world = Returned w')
    as [w' Hret] by (eexists; vm_compute; reflexivity).
  destruct (register_class_keeps_classes sample_platform plain_window 500
              {| caption := "" |} registered_world w' Hret)
    as (Hkept & _ & Hnew).
  exists w'. split; [done|]. split.
  - apply Hkept. reflexivity.
  - by rewrite Hnew.
Defined.

Lemma construction_succeeds_witness :
  ∃ w',
    AppWindow_ctor sample_platform plain_window 500 {| caption := "Hello" |}
      fresh_world = Returned w'
    ∧ m_window w' 500 = 1 ∧ GetWindowLongPtr w' 1 = 500.
Proof.
  apply (construction_succeeds sample_platform plain_window 500
           {| caption := "Hello" |} fresh_world).
  - done.
  - reflexivity.
  - reflexivity.
  - repeat constructor; done.
  - reflexivity.
  - intros window wParam lParam. by split.
Defined.

Lemma early_message_faults_creation_witness :
  create early_platform main_window 500 {| caption := "Hello" |}
    registered_world = Faulted null_this_call.
Proof.
  destruct (early_message_faults_creation early_platform main_window 500
              {| caption := "Hello" |} registered_world
              {| msg_code := WM_GETMINMAXINFO; msg_wParam := 0;
                 msg_lParam := 8192 |} []) as (_ & _ & _ & Hcreate).
  - reflexivity.
  - done.
  - by eexists.
  - reflexivity.
  - reflexivity.
  - exact Hcreate.
Defined.

Lemma refused_creation_raises_witness :
  ∃ error_code,
    AppWindow_ctor sample_platform deaf_window 500 {| caption := "Hello" |}
      fresh_world
    = Raised (make_win32_error sample_platform "CreateWindow" error_code).
Proof.
  apply (refused_creation_raises sample_platform deaf_window 500
           {| caption := "Hello" |} fresh_world); done.
Defined.

Lemma destroying_a_main_window_stops_the_pump_witness :
  ∃ w' w'',
    AppWindow_ctor sample_platform main_window 500 {| caption := "Hello" |}
      fresh_world = Returned w'
    ∧ WndProc sample_platform main_window w' (m_window w' 500) WM_DESTROY 0 0
      = Returned (w'', 0)
    ∧ w_quit w'' = 1 :: w_quit w'.
Proof.
  assert (∃ w', AppWindow_ctor sample_platform main_window 500
                  {| caption := "Hello" |} fresh_world = Returned w')
    as [w' Hctor] by (eexists; vm_compute; reflexivity).
  destruct (destroying_a_main_window_stops_the_pump sample_platform main_window
              500 {| caption := "Hello" |} fresh_world w' 0 0)
    as (w'' & Hret & Hquit).
  - constructor.
  - repeat constructor; done.
  - reflexivity.
  - reflexivity.
  - exact Hctor.
  - by exists w', w''.
Defined.

Lemma second_window_is_independent_witness :
  ∃ w1 w2,
    AppWindow_ctor sample_platform main_window 500 {| caption := "One" |}
      fresh_world = Returned w1
    ∧ AppWindow_ctor sample_platform main_window 600 {| caption := "Two" |}
        w1 = Returned w2
    ∧ m_window w2 500 ≠ m_window w2 600
    ∧ GetWindowLongPtr w2 (m_window w2 500) = 500
    ∧ GetWindowLongPtr w2 (m_window w2 600) = 600.
Proof.
  assert (∃ w1, AppWindow_ctor sample_platform main_window 500
                  {| caption := "One" |} fresh_world = Returned w1)
    as [w1 Hfirst] by (eexists; vm_compute; reflexivity).
  assert (∃ w2, AppWindow_ctor sample_platform main_window 600
                  {| caption := "Two" |} w1 = Returned w2)
    as [w2 Hsecond].
  { vm_compute in Hfirst. injection Hfirst as <-.
    eexists. vm_compute. reflexivity. }
  destruct (second_window_is_independent sample_platform main_window main_window
              500 600 {| caption := "One" |} {| caption := "Two" |}
              fresh_world w1 w2) as (_ & Hdistinct & Hown1 & Hown2).
  - constructor.
  - repeat constructor; done.
  - done.
  - exact Hfirst.
  - exact Hsecond.
  - exists w1, w2. split_and!; done.
Defined.

Lemma strip_takes_one_line_break_at_most_witness :
  win32_error.strip (String "010"%char EmptyString)
    = String "010"%char EmptyString
  ∧ win32_error.strip ("done." +:+ String "010"%char EmptyString)
    = "done." +:+ String "010"%char EmptyString.
Proof.
  split.
  - destruct (strip_takes_one_line_break_at_most (String "010"%char EmptyString))
      as (_ & Hshort & _). apply Hshort. simpl. lia.
  - destruct (strip_takes_one_line_break_at_most
                ("done." +:+ String "010"%char EmptyString)) as (_ & _ & Hlf).
    by apply (Hlf "done" "."%char).
Defined.

Lemma failure_text_identifies_code_witness :
  win32_error.format sample_platform "CreateWindow" 5
  ≠ win32_error.format sample_platform "CreateWindow" 6.
Proof.
  by apply (failure_text_identifies_code sample_platform "CreateWindow" 5 6).
Defined.

(** ** Answers of the type's own handlers, and the codes of failures *)

Section Answers.

Context {U : Type} (P : Platform) (T : WindowType U).

Local Abbreviation World := (World U).

(** X18: what the [on_hittest] or the [on_set_cursor] that a type declares
    answers is what the platform gets, as far as its low 32 bits go: exactly
    the answer when it fits in them, and in an x64 build an answer like
    [HTTRANSPARENT], -1, comes out as its unsigned 32-bit value. *)
Theorem handler_answers_reach_the_platform
    (w : World) (window wParam lParam this_ : Z) :
  GetWindowLongPtr w window = this_ → this_ ≠ 0 →
  (∀ f, T_on_hittest T = Some f →
     let answer := (f this_ window (point_x lParam) (point_y lParam) (w_user w)).2 in
     ∃ w', WndProc P T w window WM_NCHITTEST wParam lParam
           = Returned (w', low_dword (arch P) answer)
           ∧ (fits_low_dword (arch P) answer → low_dword (arch P) answer = answer))
  ∧ (∀ f, T_on_set_cursor T = Some f →
       let answer := (f this_ window wParam (low_field lParam)
                        (high_field lParam) (w_user w)).2 in
       ∃ w', WndProc P T w window WM_SETCURSOR wParam lParam
             = Returned (w', low_dword (arch P) answer)
             ∧ (fits_low_dword (arch P) answer →
                low_dword (arch P) answer = answer)).
Proof.
  intros Hown Hnn. split.
  - intros f Hf answer. unfold WndProc.
    rewrite bind_on_create_other by done. cbn [mbind Outcome_bind].
    rewrite Hown, bool_decide_eq_true_2 by done.
    unfold switch_message. repeat case_bool_decide; try done.
    unfold HANDLE_WM_NCHITTEST, on_hittest. rewrite Hf.
    rewrite cracked_x, cracked_y. unfold run_value. cbn [fst snd w_user record with_trace].
    eexists. split; [|apply low_dword_fits].
    f_equal. f_equal. unfold to_LRESULT, to_DWORD, to_UINT, wrap_unsigned, low_dword.
    by rewrite Z.mod_mod by lia.
  - intros f Hf answer. unfold WndProc.
    rewrite bind_on_create_other by done. cbn [mbind Outcome_bind].
    rewrite Hown, bool_decide_eq_true_2 by done.
    unfold switch_message. repeat case_bool_decide; try done.
    unfold HANDLE_WM_SETCURSOR, on_set_cursor. rewrite Hf.
    rewrite cracked_low, cracked_high. unfold run_value.
    cbn [fst snd w_user record with_trace].
    eexists. split; [|apply low_dword_fits].
    f_equal. f_equal. unfold to_LRESULT, to_DWORD, to_BOOL, wrap_unsigned, low_dword.
    by rewrite wrap_signed_mod by lia.
Qed.

Lemma register_class_proceeds (this : Z) (creation_params : WindowCreationParams)
    (w : World) (rest : list (option N)) :
  w_faults w = None :: rest →
  ∃ w', register_class P T this creation_params w = Returned w'
        ∧ is_Some (w_classes w' !! get_class_name T)
        ∧ w_faults w' = rest.
Proof.
  intros Hfaults. unfold register_class, RegisterClassEx, next_fault.
  rewrite Hfaults. cbn [with_faults w_classes].
  destruct (w_classes w !! lpszClassName (window_class T)) as [c|] eqn:Hclass.
  - cbn [GetLastError with_last_error w_last_error].
    rewrite bool_decide_eq_true_2 by done.
    rewrite (bool_decide_eq_false_2 (_ ≠ _)) by naive_solver.
    eexists. split; [done|]. simpl in *. by rewrite Hclass.
  - rewrite (bool_decide_eq_false_2 (class_atom = 0)) by done.
    eexists. split; [done|]. simpl. by rewrite lookup_insert_eq.
Qed.

(** X19: the code of a failure of the platform is the code in the failure
    the constructor leaves by: a registration that fails with a code other
    than "class already exists" gives the failure of ["RegisterClassEx"] and
    that code, and a creation that the platform refuses after a registration
    that went through gives the failure of ["CreateWindow"] and its code. *)
Theorem platform_failure_code_is_reported
    (this : Z) (creation_params : WindowCreationParams) (w : World)
    (e : N) (rest : list (option N)) :
  (w_faults w = Some e :: rest → e ≠ ERROR_CLASS_ALREADY_EXISTS →
   AppWindow_ctor P T this creation_params w
     = Raised (make_win32_error P "RegisterClassEx" e))
  ∧ (w_faults w = None :: Some e :: rest →
     AppWindow_ctor P T this creation_params w
       = Raised (make_win32_error P "CreateWindow" e)).
Proof.
  split.
  - intros Hfaults He. unfold AppWindow_ctor, register_class, RegisterClassEx,
      next_fault. cbn [Window_ctor with_objects w_faults]. rewrite Hfaults.
    cbn [GetLastError with_last_error w_last_error].
    rewrite !bool_decide_eq_true_2 by done. done.
  - intros Hfaults. unfold AppWindow_ctor.
    destruct (register_class_proceeds this creation_params (Window_ctor this w)
                (Some e :: rest)) as (w1 & Hreg & [c Hclass] & Hf1); [done|].
    rewrite Hreg. cbn [mbind Outcome_bind]. unfold create, CreateWindow.
    rewrite Hclass. unfold next_fault. rewrite Hf1.
    cbn [mbind Outcome_bind]. by rewrite bool_decide_eq_true_2.
Qed.

End Answers.

(** A type that answers [HTTRANSPARENT] to every hit-test. *)
Definition glass_window : WindowType clicks :=
  {| wt_base := AppWindow_base; wt_WndProc := 4214784;
     T_on_destroy := None; T_on_left_button_up := None; T_on_mouse_move := None;
     T_on_hittest := Some (λ this hwnd x y seen, (seen, -1));
     T_on_paint := None; T_on_set_cursor := None; T_on_message := None |}.

Lemma handler_answers_reach_the_platform_witness :
  ∃ w', WndProc sample_platform glass_window bound_world 1 WM_NCHITTEST 0 0
        = Returned (w', 4294967295).
Proof.
  destruct (handler_answers_reach_the_platform sample_platform glass_window
              bound_world 1 0 0 500) as [Hhit _]; [reflexivity|done|].
  destruct (Hhit _ eq_refl) as (w' & Hret & _). by exists w'.
Defined.

Lemma platform_failure_code_is_reported_witness :
  AppWindow_ctor sample_platform main_window 500 {| caption := "Hello" |}
    (with_faults [None; Some 8%N] fresh_world)
  = Raised {| what := "CreateWindow: error 8" |}.
Proof.
  destruct (platform_failure_code_is_reported sample_platform main_window 500
              {| caption := "Hello" |} (with_faults [None; Some 8%N] fresh_world)
              8%N []) as [_ Hcreate].
  by rewrite Hcreate.
Defined.
